(** * Memex static site: sidebar tabs, mobile menu and mobile search

    A shallow embedding of [docs/assets/sidebar.js].  The script wires four
    controllers to the page at load time ([init]); afterwards the page only
    changes through the event handlers the controllers registered.  The
    embedding follows that shape: a [Document] record holds the elements the
    script looks up, a [State] adds the closure variables of the
    controllers, each handler is a function on states, and [dispatch]
    delivers one event.

    Conventions.
    - A JavaScript string is a [string] whose characters are the code units
      below 256; character 160 is the no-break space.
    - An element that a selector may fail to find is an [option]; for the
      class-bearing elements the option holds the element's [classList].
      The [innerHTML] of the results element is the markup last assigned.
    - Distinct selectors are taken to name distinct elements, and the set of
      elements a selector matches does not change after load.
    - The [metadata] object of the index file is a finite map over its own
      keys, read with [getMember], which also finds the members that every
      object inherits from [Object.prototype].
    - Timers are events: a timer callback may run whenever its listener is
      registered, which covers every moment at which it can really run. *)

From Stdlib Require Import Ascii ZArith Lia.
From stdpp Require Import base option list gmap strings.

(** ** Strings *)

(** The double quote character, used in the markup literals. *)
Definition dq : string := String "034"%char EmptyString.

(** [String.prototype.trim] strips white space and line terminators from
    both ends.  Below 256 these are TAB, LF, VT, FF, CR, SP and NBSP. *)
Definition isWhiteSpace (c : ascii) : bool :=
  match nat_of_ascii c with
  | 9 | 10 | 11 | 12 | 13 | 32 | 160 => true
  | _ => false
  end.

Fixpoint trimStart (s : string) : string :=
  match s with
  | EmptyString => EmptyString
  | String c s' => if isWhiteSpace c then trimStart s' else s
  end.

Fixpoint trimEnd (s : string) : string :=
  match s with
  | EmptyString => EmptyString
  | String c s' =>
      match trimEnd s' with
      | EmptyString => if isWhiteSpace c then EmptyString else String c EmptyString
      | t => String c t
      end
  end.

Definition trim (s : string) : string := trimEnd (trimStart s).

(** [!query] for a string: only the empty string is falsy. *)
Definition falsy (s : string) : bool :=
  match s with EmptyString => true | _ => false end.

(** [Array.prototype.join] on an array of strings. *)
Fixpoint join (sep : string) (l : list string) : string :=
  match l with
  | [] => EmptyString
  | [x] => x
  | x :: l' => x +:+ sep +:+ join sep l'
  end.

(** Serialisation of one character of a text node, as [innerHTML] does it. *)
Definition escapeChar (c : ascii) : string :=
  match nat_of_ascii c with
  | 38 => "&amp;"
  | 60 => "&lt;"
  | 62 => "&gt;"
  | 160 => "&nbsp;"
  | _ => String c EmptyString
  end.

(** [escapeHtml]: assign the text as [textContent] of a fresh [div] and read
    the [innerHTML] back. *)
Fixpoint escapeHtml (text : string) : string :=
  match text with
  | EmptyString => EmptyString
  | String c s => escapeChar c +:+ escapeHtml s
  end.

(** ** The page *)

Abbreviation DOMTokenList := (gset string).

Definition addClass (c : string) (e : option DOMTokenList) : option DOMTokenList :=
  (λ cl, cl ∪ {[c]}) <$> e.

Definition removeClass (c : string) (e : option DOMTokenList) : option DOMTokenList :=
  (λ cl, cl ∖ {[c]}) <$> e.

Definition containsClass (c : string) (e : option DOMTokenList) : bool :=
  match e with
  | Some cl => bool_decide (c ∈ cl)
  | None => false
  end.

(** A [.nav-tab] button: its class list and its [data-tab] attribute. *)
Record TabButton := {
  tab_classList : DOMTokenList;
  tab_dataset : option string
}.

(** Every element the script looks up, with the part of it the script
    reads or writes. *)
Record Document := {
  tabs : list TabButton;               (* querySelectorAll('.nav-tab'), document order *)
  treeSection : option string;         (* #tree-section, its style.display *)
  recentSection : option string;       (* #recent-section, its style.display *)
  menuBtn : option DOMTokenList;       (* .mobile-menu-btn *)
  sidebar : option DOMTokenList;       (* .sidebar *)
  overlay : option DOMTokenList;       (* .sidebar-overlay *)
  body : DOMTokenList;                 (* document.body.classList *)
  searchBtn : bool;                    (* .mobile-search-btn exists *)
  searchOverlay : option DOMTokenList; (* .search-overlay *)
  searchClose : bool;                  (* .search-overlay-close exists *)
  searchInput : option string;         (* .search-overlay-input, its value *)
  searchResults : option string;       (* .search-overlay-results, its innerHTML *)
  bottomSearchBtn : bool;              (* .bottom-nav-search exists *)
  localStorage : gmap string string
}.

Definition with_tabs (f : list TabButton → list TabButton) (d : Document) : Document :=
  {| tabs := f (tabs d); treeSection := treeSection d; recentSection := recentSection d;
     menuBtn := menuBtn d; sidebar := sidebar d; overlay := overlay d; body := body d;
     searchBtn := searchBtn d; searchOverlay := searchOverlay d; searchClose := searchClose d;
     searchInput := searchInput d; searchResults := searchResults d;
     bottomSearchBtn := bottomSearchBtn d; localStorage := localStorage d |}.

Definition with_sections (tree recent : string) (d : Document) : Document :=
  {| tabs := tabs d;
     treeSection := (λ _, tree) <$> treeSection d;
     recentSection := (λ _, recent) <$> recentSection d;
     menuBtn := menuBtn d; sidebar := sidebar d; overlay := overlay d; body := body d;
     searchBtn := searchBtn d; searchOverlay := searchOverlay d; searchClose := searchClose d;
     searchInput := searchInput d; searchResults := searchResults d;
     bottomSearchBtn := bottomSearchBtn d; localStorage := localStorage d |}.

Definition with_menu (fb fs fo : option DOMTokenList → option DOMTokenList)
    (d : Document) : Document :=
  {| tabs := tabs d; treeSection := treeSection d; recentSection := recentSection d;
     menuBtn := fb (menuBtn d); sidebar := fs (sidebar d); overlay := fo (overlay d);
     body := body d;
     searchBtn := searchBtn d; searchOverlay := searchOverlay d; searchClose := searchClose d;
     searchInput := searchInput d; searchResults := searchResults d;
     bottomSearchBtn := bottomSearchBtn d; localStorage := localStorage d |}.

Definition with_body (f : DOMTokenList → DOMTokenList) (d : Document) : Document :=
  {| tabs := tabs d; treeSection := treeSection d; recentSection := recentSection d;
     menuBtn := menuBtn d; sidebar := sidebar d; overlay := overlay d; body := f (body d);
     searchBtn := searchBtn d; searchOverlay := searchOverlay d; searchClose := searchClose d;
     searchInput := searchInput d; searchResults := searchResults d;
     bottomSearchBtn := bottomSearchBtn d; localStorage := localStorage d |}.

Definition with_searchOverlay (f : option DOMTokenList → option DOMTokenList)
    (d : Document) : Document :=
  {| tabs := tabs d; treeSection := treeSection d; recentSection := recentSection d;
     menuBtn := menuBtn d; sidebar := sidebar d; overlay := overlay d; body := body d;
     searchBtn := searchBtn d; searchOverlay := f (searchOverlay d);
     searchClose := searchClose d;
     searchInput := searchInput d; searchResults := searchResults d;
     bottomSearchBtn := bottomSearchBtn d; localStorage := localStorage d |}.

Definition with_searchInput (f : option string → option string) (d : Document) : Document :=
  {| tabs := tabs d; treeSection := treeSection d; recentSection := recentSection d;
     menuBtn := menuBtn d; sidebar := sidebar d; overlay := overlay d; body := body d;
     searchBtn := searchBtn d; searchOverlay := searchOverlay d; searchClose := searchClose d;
     searchInput := f (searchInput d); searchResults := searchResults d;
     bottomSearchBtn := bottomSearchBtn d; localStorage := localStorage d |}.

Definition with_searchResults (f : option string → option string) (d : Document) : Document :=
  {| tabs := tabs d; treeSection := treeSection d; recentSection := recentSection d;
     menuBtn := menuBtn d; sidebar := sidebar d; overlay := overlay d; body := body d;
     searchBtn := searchBtn d; searchOverlay := searchOverlay d; searchClose := searchClose d;
     searchInput := searchInput d; searchResults := f (searchResults d);
     bottomSearchBtn := bottomSearchBtn d; localStorage := localStorage d |}.

Definition with_localStorage (f : gmap string string → gmap string string)
    (d : Document) : Document :=
  {| tabs := tabs d; treeSection := treeSection d; recentSection := recentSection d;
     menuBtn := menuBtn d; sidebar := sidebar d; overlay := overlay d; body := body d;
     searchBtn := searchBtn d; searchOverlay := searchOverlay d; searchClose := searchClose d;
     searchInput := searchInput d; searchResults := searchResults d;
     bottomSearchBtn := bottomSearchBtn d; localStorage := f (localStorage d) |}.

(** ** The search index and its metadata *)

(** One entry of [data.documents]; only the index builder reads it. *)
Record Doc := {
  doc_id : string;
  doc_title : string;
  doc_tags : list string;
  doc_content : string
}.

(** One entry of [data.metadata].  [meta.tags] may be missing. *)
Record Meta := {
  meta_title : string;
  meta_path : string;
  meta_tags : option (list string)
}.

(** The property names a plain object inherits from [Object.prototype]. *)
Definition objectPrototypeKeys : list string :=
  [ "constructor"; "hasOwnProperty"; "isPrototypeOf"; "propertyIsEnumerable";
    "toLocaleString"; "toString"; "valueOf"; "__proto__";
    "__defineGetter__"; "__defineSetter__"; "__lookupGetter__"; "__lookupSetter__" ].

(** The value of [searchMetadata[key]]: the entry stored under the key; else
    the member of that name inherited from [Object.prototype]; else
    [undefined]. *)
Inductive MetaValue :=
| OwnEntry (meta : Meta)
| InheritedMember
| Undefined.

Definition getMember (metadata : gmap string Meta) (key : string) : MetaValue :=
  match metadata !! key with
  | Some meta => OwnEntry meta
  | None =>
      if bool_decide (key ∈ objectPrototypeKeys) then InheritedMember else Undefined
  end.

(** A ranked result of [searchIndex.search]; the script reads [ref] only. *)
Record SearchResult := { ref : string }.

(** [searchIndex.search(query)] returns the ranked results or throws. *)
Inductive SearchOutcome :=
| Hits (results : list SearchResult)
| QueryError.

(** The index is opaque: all the script does with it is call [search]. *)
Definition Index := string → SearchOutcome.

(** The body of [search-index.json]; either field may be missing. *)
Record SearchData := {
  data_documents : option (list Doc);
  data_metadata : option (gmap string Meta)
}.

(** How the [fetch] of the index settles. *)
Inductive FetchOutcome :=
| Rejected                 (* the request itself fails *)
| NotOk                    (* res.ok is false *)
| BadJson                  (* res.json() rejects *)
| Json (data : SearchData).

(** How a handler body ends. *)
Inductive completion :=
| Normal
| ThrowTypeError.

(** ** Controller state *)

(** The page together with the closure variables of [setupMobileSearch].
    [setItemLog] and [searchCalls] are traces: every [localStorage.setItem]
    and every [searchIndex.search] call, oldest first. *)
Record State := {
  document : Document;
  searchIndex : option Index;
  searchMetadata : option (gmap string Meta);
  fetchPending : bool;
  setItemLog : list (string * string);
  searchCalls : list string
}.

Definition on_document (f : Document → Document) (st : State) : State :=
  {| document := f (document st); searchIndex := searchIndex st;
     searchMetadata := searchMetadata st; fetchPending := fetchPending st;
     setItemLog := setItemLog st; searchCalls := searchCalls st |}.

Definition set_searchIndex (i : option Index) (st : State) : State :=
  {| document := document st; searchIndex := i; searchMetadata := searchMetadata st;
     fetchPending := fetchPending st; setItemLog := setItemLog st;
     searchCalls := searchCalls st |}.

Definition set_searchMetadata (m : option (gmap string Meta)) (st : State) : State :=
  {| document := document st; searchIndex := searchIndex st; searchMetadata := m;
     fetchPending := fetchPending st; setItemLog := setItemLog st;
     searchCalls := searchCalls st |}.

Definition set_fetchPending (b : bool) (st : State) : State :=
  {| document := document st; searchIndex := searchIndex st;
     searchMetadata := searchMetadata st; fetchPending := b;
     setItemLog := setItemLog st; searchCalls := searchCalls st |}.

Definition log_setItem (k v : string) (st : State) : State :=
  {| document := document st; searchIndex := searchIndex st;
     searchMetadata := searchMetadata st; fetchPending := fetchPending st;
     setItemLog := setItemLog st ++ [(k, v)]; searchCalls := searchCalls st |}.

Definition log_search (qs : list string) (st : State) : State :=
  {| document := document st; searchIndex := searchIndex st;
     searchMetadata := searchMetadata st; fetchPending := fetchPending st;
     setItemLog := setItemLog st; searchCalls := searchCalls st ++ qs |}.

(** ** Sidebar tabs *)

Definition STORAGE_KEY : string := "memex-sidebar-tab".

(** The guard of [setupSidebarTabs]: some tab button and both sections. *)
Definition tabsPresent (d : Document) : bool :=
  negb (Nat.eqb (length (tabs d)) 0)
  && bool_decide (is_Some (treeSection d))
  && bool_decide (is_Some (recentSection d)).

Definition tab_remove_active (t : TabButton) : TabButton :=
  {| tab_classList := tab_classList t ∖ {["active"]}; tab_dataset := tab_dataset t |}.

Definition tab_add_active (t : TabButton) : TabButton :=
  {| tab_classList := tab_classList t ∪ {["active"]}; tab_dataset := tab_dataset t |}.

(** The selector text is [.nav-tab[data-tab="NAME"]].  When NAME has none of
    the characters that end or escape a quoted CSS string (the quote, the
    backslash, NUL, LF, FF, CR) the quoted string denotes NAME itself and
    the selector matches the tab buttons whose [data-tab] is NAME.  Other
    names are outside the model. *)
Definition cssPlainChar (c : ascii) : bool :=
  match nat_of_ascii c with
  | 0 | 10 | 12 | 13 | 34 | 92 => false
  | _ => true
  end.

Fixpoint cssPlain (s : string) : bool :=
  match s with
  | EmptyString => true
  | String c s' => cssPlainChar c && cssPlain s'
  end.

(** [document.querySelector] for that selector: the first match, if any. *)
Definition queryNavTab (tabName : string) (ts : list TabButton) : option (nat * TabButton) :=
  list_find (λ t, tab_dataset t = Some tabName) ts.

(** [switchTab].  [None] only for a name outside the selector model. *)
Definition switchTab (tabName : string) (d : Document) : option Document :=
  let d1 := with_tabs (fmap tab_remove_active) d in
  if cssPlain tabName then
    let d2 :=
      match queryNavTab tabName (tabs d1) with
      | Some (i, activeTab) => with_tabs (λ ts, <[i := tab_add_active activeTab]> ts) d1
      | None => d1
      end in
    Some (with_sections
            (if bool_decide (tabName = "tree") then "block" else "none")
            (if bool_decide (tabName = "recent") then "block" else "none") d2)
  else None.

(** [localStorage.getItem(STORAGE_KEY) || 'tree'] *)
Definition savedTab (d : Document) : string :=
  match localStorage d !! STORAGE_KEY with
  | Some s => if falsy s then "tree" else s
  | None => "tree"
  end.

Definition setupSidebarTabs (d : Document) : option Document :=
  if tabsPresent d then switchTab (savedTab d) d else Some d.

(** [tab.dataset.tab], converted to a string where the script needs one
    (the selector text and the stored value). *)
Definition tabNameOf (t : TabButton) : string :=
  default "undefined" (tab_dataset t).

(** The click handler of the [i]-th tab button. *)
Definition clickNavTab (i : nat) (st : State) : option State :=
  if tabsPresent (document st) then
    match tabs (document st) !! i with
    | None => Some st
    | Some tab =>
        let tabName := tabNameOf tab in
        d ← switchTab tabName (document st);
        Some (log_setItem STORAGE_KEY tabName
                (on_document (with_localStorage (<[STORAGE_KEY := tabName]>))
                   (on_document (λ _, d) st)))
    end
  else Some st.

(** ** Mobile menu *)

(** The guard of [setupMobileMenu]. *)
Definition menuPresent (d : Document) : bool :=
  bool_decide (is_Some (menuBtn d)) && bool_decide (is_Some (sidebar d)).

Definition openMenu (d : Document) : Document :=
  with_body (λ cl, cl ∪ {["menu-open"]})
    (with_menu (addClass "active") (addClass "open") (addClass "active") d).

Definition closeMenu (d : Document) : Document :=
  with_body (λ cl, cl ∖ {["menu-open"]})
    (with_menu (removeClass "active") (removeClass "open") (removeClass "active") d).

Definition toggleMenu (d : Document) : Document :=
  if containsClass "open" (sidebar d) then closeMenu d else openMenu d.

(** The [keydown] listener of the menu controller. *)
Definition menuKeydown (key : string) (d : Document) : Document :=
  if bool_decide (key = "Escape") && containsClass "open" (sidebar d)
  then closeMenu d else d.

(** The body of the debounced [resize] callback. *)
Definition menuResized (innerWidth : Z) (d : Document) : Document :=
  if (768 <? innerWidth)%Z && containsClass "open" (sidebar d)
  then closeMenu d else d.

(** ** Mobile search *)

Section MobileSearch.

(** The index builder of the full-text library, [lunr(function() {...})]
    applied to [data.documents]; [None] when building throws. *)
Variable lunr : list Doc → option Index.

(** The global [window.BASE_URL], when the page defines it. *)
Variable BASE_URL : option string.

(** [window.BASE_URL || ''] *)
Definition baseUrl : string := default "" BASE_URL.

(** The first guard of [setupMobileSearch]. *)
Definition searchPresent (d : Document) : bool :=
  searchBtn d && bool_decide (is_Some (searchOverlay d)).

(** The second guard: [searchInput && searchResults]. *)
Definition searchFieldsPresent (d : Document) : bool :=
  bool_decide (is_Some (searchInput d)) && bool_decide (is_Some (searchResults d)).

Definition openSearch (d : Document) : Document :=
  with_body (λ cl, cl ∪ {["menu-open"]}) (with_searchOverlay (addClass "active") d).

Definition closeSearch (d : Document) : Document :=
  with_searchResults (fmap (λ _, ""))
    (with_searchInput (fmap (λ _, ""))
       (with_body (λ cl, cl ∖ {["menu-open"]})
          (with_searchOverlay (removeClass "active") d))).

(** The [keydown] listener of the search controller. *)
Definition searchKeydown (key : string) (d : Document) : Document :=
  if bool_decide (key = "Escape") && containsClass "active" (searchOverlay d)
  then closeSearch d else d.

(** The two [then] callbacks and the [catch] of the index fetch.  The
    metadata is stored first; if [data.documents] is missing or the builder
    throws, the rejection is logged and the index stays unset. *)
Definition fetchSettled (r : FetchOutcome) (st : State) : State :=
  if fetchPending st then
    let st0 := set_fetchPending false st in
    match r with
    | Json data =>
        let st1 := set_searchMetadata (data_metadata data) st0 in
        match data_documents data with
        | Some docs =>
            match lunr docs with
            | Some idx => set_searchIndex (Some idx) st1
            | None => st1
            end
        | None => st1
        end
    | _ => st0
    end
  else st.

(** The [try] block of [performMobileSearch]: the results that reach the
    rendering step, and the queries passed to [search] on the way. *)
Definition runSearch (idx : Index) (query : string) : list SearchResult * list string :=
  match idx query with
  | Hits results =>
      if Nat.eqb (length results) 0 then
        match idx (query +:+ "*") with
        | Hits results' => (results', [query; query +:+ "*"])
        | QueryError => ([], [query; query +:+ "*"])
        end
      else (results, [query])
  | QueryError => ([], [query])
  end.

Definition noResultsHtml : string :=
  "<div class=" +:+ dq +:+ "search-result" +:+ dq +:+ ">No results found</div>".

Definition tagsHtml (meta : Meta) : string :=
  match meta_tags meta with
  | Some (t :: ts) =>
      "<div class=" +:+ dq +:+ "search-tags" +:+ dq +:+ ">"
        +:+ join ", " (t :: ts) +:+ "</div>"
  | _ => ""
  end.

(** The callback mapped over the results.  An inherited member is truthy
    and has no [tags], [path] or [title]: the tag line is empty, the path
    reads [undefined], and [escapeHtml(undefined)] is the empty string. *)
Definition renderResult (metadata : gmap string Meta) (result : SearchResult) : string :=
  match getMember metadata (ref result) with
  | Undefined => ""
  | OwnEntry meta =>
      "<div class=" +:+ dq +:+ "search-result" +:+ dq +:+ ">"
        +:+ "<a href=" +:+ dq +:+ baseUrl +:+ "/" +:+ meta_path meta +:+ dq +:+ ">"
        +:+ escapeHtml (meta_title meta) +:+ "</a>"
        +:+ tagsHtml meta
        +:+ "</div>"
  | InheritedMember =>
      "<div class=" +:+ dq +:+ "search-result" +:+ dq +:+ ">"
        +:+ "<a href=" +:+ dq +:+ baseUrl +:+ "/" +:+ "undefined" +:+ dq +:+ ">"
        +:+ "" +:+ "</a>"
        +:+ ""
        +:+ "</div>"
  end.

(** [results.slice(0, 15).map(...).join('')] *)
Definition renderResults (metadata : gmap string Meta) (results : list SearchResult) : string :=
  join "" (renderResult metadata <$> take 15 results).

(** [searchResults.innerHTML = html] *)
Definition assignResults (html : string) (st : State) : completion * State :=
  match searchResults (document st) with
  | Some _ => (Normal, on_document (with_searchResults (fmap (λ _, html))) st)
  | None => (ThrowTypeError, st)
  end.

(** The final [if]/[else] of [performMobileSearch].  With results to show,
    reading [searchMetadata[result.ref]] throws when the metadata is unset. *)
Definition showResults (results : list SearchResult) (st : State) : completion * State :=
  if Nat.eqb (length results) 0 then assignResults noResultsHtml st
  else
    match searchMetadata st with
    | None => (ThrowTypeError, st)
    | Some metadata => assignResults (renderResults metadata results) st
    end.

Definition performMobileSearch (st : State) : completion * State :=
  match searchInput (document st) with
  | None => (ThrowTypeError, st)
  | Some value =>
      let query := trim value in
      match (if falsy query then None else searchIndex st) with
      | None => assignResults "" st
      | Some idx =>
          let '(results, calls) := runSearch idx query in
          showResults results (log_search calls st)
      end
  end.

Definition setupMobileSearch (st : State) : State :=
  if searchPresent (document st) && searchFieldsPresent (document st)
  then set_fetchPending true st else st.

(** The click handler of [setupBottomNavSearch]. *)
Definition bottomNavSearchClicked (d : Document) : Document :=
  if bottomSearchBtn d && bool_decide (is_Some (searchOverlay d))
  then openSearch d else d.

(** ** The page as a whole *)

Inductive Event :=
| ClickNavTab (i : nat)              (* click on the i-th .nav-tab *)
| ClickMenuBtn
| ClickSidebarOverlay
| SidebarLinkTimer                   (* the delayed closeMenu after a link click *)
| ResizeTimer (innerWidth : Z)       (* the debounced resize callback *)
| Keydown (key : string)
| ClickSearchBtn
| ClickSearchClose
| ClickBottomNavSearch
| FetchSettled (r : FetchOutcome)
| InputEdited (value : string)       (* the user edits the search input *)
| DebounceTimer.                     (* the debounced performMobileSearch *)

(** [init]: the four setup routines in order.  [setupMobileMenu] and
    [setupBottomNavSearch] only register listeners, which [dispatch] reads
    off the presence of their elements ([menuPresent], [bottomSearchBtn]). *)
Definition init (d : Document) : option State :=
  d' ← setupSidebarTabs d;
  Some (setupMobileSearch
          {| document := d'; searchIndex := None; searchMetadata := None;
             fetchPending := false; setItemLog := []; searchCalls := [] |}).

(** One event delivered to the listeners that [init] registered.  Both
    [keydown] listeners sit on [document]; the menu's was added first. *)
Definition dispatch (ev : Event) (st : State) : option State :=
  let d := document st in
  match ev with
  | ClickNavTab i => clickNavTab i st
  | ClickMenuBtn =>
      Some (if menuPresent d then on_document toggleMenu st else st)
  | ClickSidebarOverlay =>
      Some (if menuPresent d && bool_decide (is_Some (overlay d))
            then on_document closeMenu st else st)
  | SidebarLinkTimer =>
      Some (if menuPresent d then on_document closeMenu st else st)
  | ResizeTimer w =>
      Some (if menuPresent d then on_document (menuResized w) st else st)
  | Keydown key =>
      let st1 := if menuPresent d then on_document (menuKeydown key) st else st in
      Some (if searchPresent d then on_document (searchKeydown key) st1 else st1)
  | ClickSearchBtn =>
      Some (if searchPresent d then on_document openSearch st else st)
  | ClickSearchClose =>
      Some (if searchPresent d && searchClose d then on_document closeSearch st else st)
  | ClickBottomNavSearch =>
      Some (on_document bottomNavSearchClicked st)
  | FetchSettled r => Some (fetchSettled r st)
  | InputEdited value =>
      Some (on_document (with_searchInput (fmap (λ _, value))) st)
  | DebounceTimer =>
      Some (if searchPresent d && searchFieldsPresent d
            then snd (performMobileSearch st) else st)
  end.

Fixpoint run (evs : list Event) (st : State) : option State :=
  match evs with
  | [] => Some st
  | ev :: evs' => st' ← dispatch ev st; run evs' st'
  end.

End MobileSearch.

(** ** A sample page and a sample index builder *)

Definition navTab (name : string) : TabButton :=
  {| tab_classList := {["nav-tab"]}; tab_dataset := Some name |}.

(** A page that has every element the script looks for. *)
Definition samplePage : Document :=
  {| tabs := [navTab "tree"; navTab "recent"];
     treeSection := Some ""; recentSection := Some "";
     menuBtn := Some {["mobile-menu-btn"]}; sidebar := Some {["sidebar"]};
     overlay := Some {["sidebar-overlay"]}; body := ∅;
     searchBtn := true; searchOverlay := Some {["search-overlay"]}; searchClose := true;
     searchInput := Some ""; searchResults := Some "";
     bottomSearchBtn := true; localStorage := ∅ |}.

(** [Some p] when the query is [p] followed by a final star. *)
Fixpoint wildcardPrefix (q : string) : option string :=
  match q with
  | EmptyString => None
  | String c EmptyString => if Ascii.eqb c "*"%char then Some EmptyString else None
  | String c q' => String c <$> wildcardPrefix q'
  end.

Fixpoint hasColon (q : string) : bool :=
  match q with
  | EmptyString => false
  | String c q' => Ascii.eqb c ":"%char || hasColon q'
  end.

(** A small stand-in for the library index: a plain query matches the
    documents with exactly that title, a query ending in a star matches the
    titles with that prefix, and a query with a colon is a syntax error. *)
Definition titleIndex (docs : list Doc) : Index := λ q,
  if hasColon q then QueryError
  else
    match wildcardPrefix q with
    | Some p =>
        Hits ((λ d, {| ref := doc_id d |}) <$> filter (λ d, String.prefix p (doc_title d) = true) docs)
    | None =>
        Hits ((λ d, {| ref := doc_id d |}) <$> filter (λ d, doc_title d = q) docs)
    end.

Definition sampleLunr (docs : list Doc) : option Index := Some (titleIndex docs).

Definition sampleDocs : list Doc :=
  [ {| doc_id := "a"; doc_title := "Memex"; doc_tags := ["x"]; doc_content := "notes" |};
    {| doc_id := "b"; doc_title := "Stale"; doc_tags := []; doc_content := "gone" |} ].

Definition sampleMetadata : gmap string Meta :=
  {[ "a" := {| meta_title := "Memex <kb>"; meta_path := "a.html";
               meta_tags := Some ["<b>x</b>"; "y"] |} ]}.

Definition sampleData : SearchData :=
  {| data_documents := Some sampleDocs; data_metadata := Some sampleMetadata |}.

(** The sample page after [init], and after the index has loaded. *)
Definition sampleStart : State :=
  default {| document := samplePage; searchIndex := None; searchMetadata := None;
             fetchPending := false; setItemLog := []; searchCalls := [] |}
          (init samplePage).

Definition sampleLoaded : State :=
  fetchSettled sampleLunr (Json sampleData) sampleStart.

(** A string made of white space only (the empty string included). *)
Fixpoint whitespaceOnly (s : string) : bool :=
  match s with
  | EmptyString => true
  | String c s' => isWhiteSpace c && whitespaceOnly s'
  end.

(** [Hits rs] counts as [rs], a thrown error as no results. *)
Definition hitsOf (o : SearchOutcome) : list SearchResult :=
  match o with
  | Hits results => results
  | QueryError => []
  end.

(** The page contract for the tab buttons: each one names [tree] or
    [recent]. *)
Definition tabNamesOk (d : Document) : Prop :=
  ∀ t, t ∈ tabs d → tab_dataset t = Some "tree" ∨ tab_dataset t = Some "recent".

(** Index and metadata are both set or both unset. *)
Definition bothOrNeither (st : State) : Prop :=
  (is_Some (searchIndex st) ∧ is_Some (searchMetadata st))
  ∨ (searchIndex st = None ∧ searchMetadata st = None).

(** A response of the expected shape whose documents the builder accepts;
    every other event passes. *)
Definition wellShaped (lunr : list Doc → option Index) (ev : Event) : Prop :=
  match ev with
  | FetchSettled (Json data) =>
      is_Some (data_metadata data)
      ∧ ∃ docs, data_documents data = Some docs ∧ is_Some (lunr docs)
  | _ => True
  end.

(** The sample page with the search overlay opened from the header button. *)
Definition sampleSearchOpen : State :=
  default sampleStart (run sampleLunr None [ClickSearchBtn] sampleStart).

(** A response that carries metadata but no documents. *)
Definition metadataOnly : SearchData :=
  {| data_documents := None; data_metadata := Some sampleMetadata |}.

(** Every storage write so far went to the preference key, with the value
    [tree] or [recent]. *)
Definition logOk (st : State) : Prop :=
  ∀ k v, (k, v) ∈ setItemLog st → k = STORAGE_KEY ∧ (v = "tree" ∨ v = "recent").

(** The state after the user has typed [value] into the search input. *)
Definition typed (value : string) (st : State) : State :=
  on_document (with_searchInput (fmap (λ _, value))) st.

(** The sample page after a response without documents has arrived. *)
Definition sampleMetadataOnly : State :=
  fetchSettled sampleLunr (Json metadataOnly) sampleStart.

(** The sample page after a click on its second tab button. *)
Definition sampleRecentClicked : State :=
  default sampleStart (clickNavTab 1 sampleStart).


(** ** Notions used by the further properties *)

(** Two pages agree on the class lists the menu and the search overlay
    work on. *)
Definition sameShell (d1 d2 : Document) : Prop :=
  menuBtn d1 = menuBtn d2 ∧ sidebar d1 = sidebar d2 ∧ overlay d1 = overlay d2
  ∧ body d1 = body d2 ∧ searchOverlay d1 = searchOverlay d2.

(** The button and the overlay (when there is one) are marked active
    exactly when the sidebar is marked open. *)
Definition menuMarkersAgree (d : Document) : Prop :=
  containsClass "active" (menuBtn d) = containsClass "open" (sidebar d)
  ∧ (is_Some (overlay d) →
     containsClass "active" (overlay d) = containsClass "open" (sidebar d)).

(** The body is marked [menu-open] only while the sidebar is open or the
    search overlay is active. *)
Definition lockExplained (d : Document) : Prop :=
  "menu-open" ∈ body d →
  containsClass "open" (sidebar d) = true
  ∨ containsClass "active" (searchOverlay d) = true.

(** The character [c] occurs in the string. *)
Fixpoint occurs (c : ascii) (s : string) : bool :=
  match s with
  | EmptyString => false
  | String c' s' => Ascii.eqb c c' || occurs c s'
  end.

(** A response that carries documents but no metadata. *)
Definition documentsOnly : SearchData :=
  {| data_documents := Some sampleDocs; data_metadata := None |}.

(** The sample page after that response, with [Memex] typed in. *)
Definition sampleDocumentsOnly : State :=
  typed "Memex" (fetchSettled sampleLunr (Json documentsOnly) sampleStart).

(** A page with the bottom-navigation search button and the overlay, but
    without the header search button. *)
Definition bottomOnlyPage : Document :=
  {| tabs := []; treeSection := None; recentSection := None;
     menuBtn := None; sidebar := None; overlay := None; body := ∅;
     searchBtn := false; searchOverlay := Some {["search-overlay"]}; searchClose := true;
     searchInput := Some ""; searchResults := Some "";
     bottomSearchBtn := true; localStorage := ∅ |}.

(** The sample page after the fetch came back with a non-success status,
    and the user typed a query that then ran. *)
Definition sampleFailed : State :=
  default sampleStart
    (run sampleLunr None [FetchSettled NotOk; InputEdited "Mem"; DebounceTimer] sampleStart).

(** The bottom-navigation-only page after [init]. *)
Definition sampleBottomOnly : State :=
  default sampleStart (init bottomOnlyPage).

(** The sample page served with a stored preference. *)
Definition samplePageWith (saved : string) : Document :=
  with_localStorage (λ _, {[ STORAGE_KEY := saved ]}) samplePage.

(** An index file with documents that have no metadata entries of their
    own: the stored metadata describes the document [a] only. *)
Definition staleDocs : list Doc :=
  [ {| doc_id := "a"; doc_title := "Memex"; doc_tags := ["x"]; doc_content := "notes" |};
    {| doc_id := "constructor"; doc_title := "Memex"; doc_tags := [];
       doc_content := "first" |};
    {| doc_id := "b"; doc_title := "Memex"; doc_tags := []; doc_content := "second" |} ].

Definition staleData : SearchData :=
  {| data_documents := Some staleDocs; data_metadata := Some sampleMetadata |}.

(** The sample page after that index file has loaded, with [Memex] typed
    in. *)
Definition sampleStale : State :=
  typed "Memex" (fetchSettled sampleLunr (Json staleData) sampleStart).

(** A page that passes the tab setup guard with a single tab button, the
    one for [tree]. *)
Definition treeOnlyPage : Document :=
  with_tabs (λ _, [navTab "tree"]) samplePage.

(** The sample page with a third tab button that has no [data-tab]
    attribute. *)
Definition unnamedTabPage : Document :=
  with_tabs (λ _, [navTab "tree"; navTab "recent";
                   {| tab_classList := {["nav-tab"]}; tab_dataset := None |}])
    samplePage.

(** That page after [init]. *)
Definition sampleUnnamedStart : State :=
  default sampleStart (init unnamedTabPage).

(** ... and after a click on its third button. *)
Definition sampleUnnamedClicked : State :=
  default sampleStart (run sampleLunr None [ClickNavTab 2] sampleUnnamedStart).
(** * Properties *)

(** ** Trimming *)

Lemma trimStart_empty_iff s : trimStart s = "" ↔ whitespaceOnly s = true.
Proof.
  induction s as [|c s IH]; simpl; [done|].
  destruct (isWhiteSpace c); simpl; [exact IH|].
  split; discriminate.
Qed.

Lemma trimEnd_empty_iff s : trimEnd s = "" ↔ whitespaceOnly s = true.
Proof.
  induction s as [|c s IH]; simpl; [done|].
  destruct (trimEnd s) as [|c' t] eqn:E.
  - destruct (isWhiteSpace c); simpl.
    + split; [intros _; by apply IH | done].
    + split; discriminate.
  - split; [discriminate|].
    intros [_ Hs]%andb_true_iff. apply IH in Hs. discriminate.
Qed.

Lemma whitespaceOnly_trimStart s :
  whitespaceOnly (trimStart s) = true ↔ whitespaceOnly s = true.
Proof.
  induction s as [|c s IH]; simpl; [done|].
  destruct (isWhiteSpace c) eqn:E; simpl; [exact IH|].
  by rewrite E.
Qed.

Lemma trim_empty_iff s : trim s = "" ↔ whitespaceOnly s = true.
Proof.
  unfold trim. rewrite trimEnd_empty_iff. apply whitespaceOnly_trimStart.
Qed.

Lemma append_empty_r s : s +:+ "" = s.
Proof.
  induction s as [|c s IH]; [done|].
  change (String c s +:+ "") with (String c (s +:+ "")). by f_equal.
Qed.

Lemma join_empty_cons x l : join "" (x :: l) = x +:+ join "" l.
Proof. destruct l; cbn [join]; [by rewrite append_empty_r | done]. Qed.

Lemma join_empty_skip l1 l2 : join "" (l1 ++ "" :: l2) = join "" (l1 ++ l2).
Proof.
  induction l1 as [|x l1 IH].
  - simpl app. by rewrite join_empty_cons.
  - rewrite <- !app_comm_cons, !join_empty_cons. by rewrite IH.
Qed.

Lemma falsy_true_iff s : falsy s = true ↔ s = "".
Proof. destruct s; simpl; split; congruence. Qed.

(** ** The search handler *)

Section SearchHandler.

Variable BASE_URL : option string.

Lemma assignResults_present html st old :
  searchResults (document st) = Some old →
  assignResults html st = (Normal, on_document (with_searchResults (fmap (λ _, html))) st).
Proof. intros H. unfold assignResults. by rewrite H. Qed.

Lemma performMobileSearch_cleared st value old :
  searchInput (document st) = Some value →
  searchResults (document st) = Some old →
  trim value = "" ∨ searchIndex st = None →
  performMobileSearch BASE_URL st
  = (Normal, on_document (with_searchResults (fmap (λ _, ""))) st).
Proof.
  intros Hin Hres Hguard. unfold performMobileSearch. rewrite Hin.
  assert ((if falsy (trim value) then None else searchIndex st) = None) as ->.
  { destruct Hguard as [-> | ->]; [done | by destruct (falsy _)]. }
  by eapply assignResults_present.
Qed.

Lemma performMobileSearch_loaded st value old idx :
  searchInput (document st) = Some value →
  searchResults (document st) = Some old →
  searchIndex st = Some idx →
  trim value ≠ "" →
  performMobileSearch BASE_URL st
  = showResults BASE_URL (fst (runSearch idx (trim value)))
      (log_search (snd (runSearch idx (trim value))) st).
Proof.
  intros Hin Hres Hidx Hq. unfold performMobileSearch. rewrite Hin, Hidx.
  destruct (falsy (trim value)) eqn:E; [by apply falsy_true_iff in E|].
  by destruct (runSearch idx (trim value)).
Qed.

(** C4: a query that trims to the empty string, and any query issued while
    the index is not loaded, makes the handler clear the rendered results
    and return without a single call to the index's [search]. *)
Theorem C4_blank_or_unloaded_clears_without_search st value old :
  searchInput (document st) = Some value →
  searchResults (document st) = Some old →
  trim value = "" ∨ searchIndex st = None →
  fst (performMobileSearch BASE_URL st) = Normal
  ∧ searchResults (document (snd (performMobileSearch BASE_URL st))) = Some ""
  ∧ searchCalls (snd (performMobileSearch BASE_URL st)) = searchCalls st.
Proof.
  intros Hin Hres Hguard.
  rewrite (performMobileSearch_cleared st value old Hin Hres Hguard). simpl.
  by rewrite Hres.
Qed.

(** C2 (amended): while the index is not loaded a query leaves the rendered
    results empty, which is not the "No results found" message; that message
    is what a query renders against a loaded index when the search gives no
    results: the verbatim search call throws, or it returns no results and
    the call with a star appended returns none or throws. *)
Theorem C2_unavailable_clears_results st value old :
  searchInput (document st) = Some value →
  searchResults (document st) = Some old →
  searchIndex st = None →
  searchResults (document (snd (performMobileSearch BASE_URL st))) = Some ""
  ∧ "" ≠ "<div class=" +:+ dq +:+ "search-result" +:+ dq +:+ ">No results found</div>"
  ∧ ∀ idx, trim value ≠ "" →
      idx (trim value) = QueryError
      ∨ (idx (trim value) = Hits []
         ∧ (idx (trim value +:+ "*") = Hits [] ∨ idx (trim value +:+ "*") = QueryError)) →
      searchResults
        (document (snd (performMobileSearch BASE_URL (set_searchIndex (Some idx) st))))
      = Some ("<div class=" +:+ dq +:+ "search-result" +:+ dq
                +:+ ">No results found</div>").
Proof.
  intros Hin Hres Hidx. split_and!.
  - rewrite (performMobileSearch_cleared st value old Hin Hres (or_intror Hidx)).
    simpl. by rewrite Hres.
  - done.
  - intros idx Hq Hnone.
    rewrite (performMobileSearch_loaded _ value old idx); [|done..].
    assert (fst (runSearch idx (trim value)) = []) as ->.
    { unfold runSearch. destruct Hnone as [-> | [-> [-> | ->]]]; reflexivity. }
    unfold showResults, assignResults. simpl. rewrite Hres. simpl.
    by rewrite Hres.
Qed.

Lemma showResults_none st old :
  searchResults (document st) = Some old →
  showResults BASE_URL [] st
  = (Normal, on_document (with_searchResults (fmap (λ _, noResultsHtml))) st).
Proof. intros H. unfold showResults. simpl. by eapply assignResults_present. Qed.

(** What the handler does with a loaded index, a query that is not empty
    and metadata at hand: the calls of [runSearch] are made and the results
    element gets the message or the rendered results. *)
(** C5: for a query that is not empty after trimming, run against a loaded
    index.  When the verbatim search returns no results, the index is called
    exactly once more, with a star appended, and what the page then shows is
    made from the results of that second call: one piece of markup for each
    of its first 15 results, or the "No results found" message when it has
    none or throws.  A verbatim search with results is not retried and its
    results are shown.  A verbatim search that throws is not retried and the
    message is shown.  (Results can only be turned into markup with the
    metadata set: without it the handler throws and the page keeps what it
    showed.) *)
Theorem C5_wildcard_retry_and_errors st value old idx :
  searchInput (document st) = Some value →
  searchResults (document st) = Some old →
  searchIndex st = Some idx →
  trim value ≠ "" →
  let st' := snd (performMobileSearch BASE_URL st) in
  let message :=
    "<div class=" +:+ dq +:+ "search-result" +:+ dq +:+ ">No results found</div>" in
  let piece (metadata : gmap string Meta) (result : SearchResult) :=
    match metadata !! ref result with
    | Some meta =>
        "<div class=" +:+ dq +:+ "search-result" +:+ dq +:+ ">"
          +:+ "<a href=" +:+ dq +:+ default "" BASE_URL +:+ "/" +:+ meta_path meta
          +:+ dq +:+ ">"
          +:+ escapeHtml (meta_title meta) +:+ "</a>"
          +:+ match meta_tags meta with
              | Some (t :: ts) =>
                  "<div class=" +:+ dq +:+ "search-tags" +:+ dq +:+ ">"
                    +:+ join ", " (t :: ts) +:+ "</div>"
              | _ => ""
              end
          +:+ "</div>"
    | None =>
        if bool_decide (ref result ∈ objectPrototypeKeys)
        then "<div class=" +:+ dq +:+ "search-result" +:+ dq +:+ ">"
               +:+ "<a href=" +:+ dq +:+ default "" BASE_URL +:+ "/" +:+ "undefined"
               +:+ dq +:+ ">"
               +:+ "" +:+ "</a>" +:+ "" +:+ "</div>"
        else ""
    end in
  let shown (results : list SearchResult) : completion * option string :=
    match results with
    | [] => (Normal, Some message)
    | _ =>
        match searchMetadata st with
        | Some metadata => (Normal, Some (join "" (piece metadata <$> take 15 results)))
        | None => (ThrowTypeError, Some old)
        end
    end in
  (idx (trim value) = Hits [] →
   searchCalls st' = searchCalls st ++ [trim value; trim value +:+ "*"]
   ∧ (fst (performMobileSearch BASE_URL st), searchResults (document st'))
     = shown (hitsOf (idx (trim value +:+ "*"))))
  ∧ (∀ r rs, idx (trim value) = Hits (r :: rs) →
     searchCalls st' = searchCalls st ++ [trim value]
     ∧ (fst (performMobileSearch BASE_URL st), searchResults (document st'))
       = shown (r :: rs))
  ∧ (idx (trim value) = QueryError →
     searchCalls st' = searchCalls st ++ [trim value]
     ∧ (fst (performMobileSearch BASE_URL st), searchResults (document st'))
       = (Normal, Some message)).
Proof.
  intros Hin Hres Hidx Hq st' message piece shown. subst st'.
  rewrite (performMobileSearch_loaded st value old idx Hin Hres Hidx Hq).
  assert (∀ metadata results,
            renderResults BASE_URL metadata results
            = join "" (piece metadata <$> take 15 results))
    as Hrender.
  { intros metadata results. unfold renderResults. f_equal.
    apply list_fmap_ext. intros _ res _.
    unfold renderResult, getMember, piece, tagsHtml, baseUrl.
    destruct (metadata !! ref res) as [meta|]; [reflexivity|].
    by destruct (bool_decide _). }
  assert (∀ calls results,
            searchCalls (snd (showResults BASE_URL results (log_search calls st)))
            = searchCalls st ++ calls
            ∧ (fst (showResults BASE_URL results (log_search calls st)),
               searchResults
                 (document (snd (showResults BASE_URL results (log_search calls st)))))
              = shown results)
    as Hshow.
  { intros calls results. unfold showResults, shown.
    destruct results as [|r rs]; simpl.
    - by rewrite (assignResults_present _ _ old); simpl; rewrite ?Hres.
    - destruct (searchMetadata st) as [metadata|]; simpl.
      + rewrite (assignResults_present _ _ old); simpl; rewrite ?Hres; [|done].
        by rewrite Hrender.
      + by rewrite Hres. }
  unfold runSearch. split_and!.
  - intros ->. simpl.
    destruct (idx (trim value +:+ "*")) as [results|]; simpl; apply Hshow.
  - intros r rs ->. simpl. apply Hshow.
  - intros ->. simpl. apply (Hshow [trim value] []).
Qed.

(** C6: rendering takes the first 15 results.  A result whose identifier
    is an own key of the metadata gives a link whose text is the escaped
    title; a result whose identifier is neither an own key nor the name of
    an inherited member gives nothing.  But the lookup
    [searchMetadata[result.ref]] also finds what every object inherits: a
    result without metadata whose identifier is such a name ([constructor],
    [toString], ...) is not skipped, it is rendered as a link to
    [/undefined] with an empty text. *)
Theorem C6_inherited_key_not_skipped st value old idx metadata r rs :
  searchInput (document st) = Some value →
  searchResults (document st) = Some old →
  searchIndex st = Some idx →
  searchMetadata st = Some metadata →
  trim value ≠ "" →
  fst (runSearch idx (trim value)) = r :: rs →
  let link (path text tagLine : string) :=
    "<div class=" +:+ dq +:+ "search-result" +:+ dq +:+ ">"
      +:+ "<a href=" +:+ dq +:+ default "" BASE_URL +:+ "/" +:+ path +:+ dq +:+ ">"
      +:+ text +:+ "</a>"
      +:+ tagLine
      +:+ "</div>" in
  let piece (result : SearchResult) :=
    match metadata !! ref result with
    | Some meta =>
        link (meta_path meta) (escapeHtml (meta_title meta))
          match meta_tags meta with
          | Some (t :: ts) =>
              "<div class=" +:+ dq +:+ "search-tags" +:+ dq +:+ ">"
                +:+ join ", " (t :: ts) +:+ "</div>"
          | _ => ""
          end
    | None =>
        if bool_decide (ref result ∈ objectPrototypeKeys)
        then link "undefined" "" ""
        else ""
    end in
  searchResults (document (snd (performMobileSearch BASE_URL st)))
  = Some (join "" (piece <$> take 15 (r :: rs)))
  ∧ length (piece <$> take 15 (r :: rs)) ≤ 15
  ∧ (∀ result, metadata !! ref result = None →
       ref result ∉ objectPrototypeKeys → piece result = "")
  ∧ (∀ result, metadata !! ref result = None →
       ref result ∈ objectPrototypeKeys →
       piece result ≠ "" ∧ piece result = link "undefined" "" "").
Proof.
  intros Hin Hres Hidx Hmd Hq Hhits link piece.
  rewrite (performMobileSearch_loaded st value old idx Hin Hres Hidx Hq), Hhits.
  split_and!.
  - assert (renderResults BASE_URL metadata (r :: rs)
            = join "" (piece <$> take 15 (r :: rs))) as Hrender.
    { unfold renderResults. f_equal. apply list_fmap_ext. intros _ res _.
      unfold renderResult, getMember, piece, link, tagsHtml, baseUrl.
      destruct (metadata !! ref res) as [meta|]; [reflexivity|].
      by destruct (bool_decide _). }
    rewrite <- Hrender. unfold showResults. simpl. rewrite Hmd.
    rewrite (assignResults_present _ _ old) by done. simpl. by rewrite Hres.
  - rewrite length_fmap, length_take. lia.
  - intros result Hnone Hnot. unfold piece. rewrite Hnone.
    by rewrite bool_decide_eq_false_2.
  - intros result Hnone Hinh. unfold piece. rewrite Hnone.
    rewrite bool_decide_eq_true_2 by done. split; [|done].
    unfold link. discriminate.
Qed.


End SearchHandler.

(** ** Sidebar tabs *)

Lemma switchTab_plain tabName d :
  cssPlain tabName = true →
  switchTab tabName d
  = Some (with_sections
            (if bool_decide (tabName = "tree") then "block" else "none")
            (if bool_decide (tabName = "recent") then "block" else "none")
            (match queryNavTab tabName (tab_remove_active <$> tabs d) with
             | Some (i, activeTab) =>
                 with_tabs (λ ts, <[i := tab_add_active activeTab]> ts)
                   (with_tabs (fmap tab_remove_active) d)
             | None => with_tabs (fmap tab_remove_active) d
             end)).
Proof. intros H. unfold switchTab. by rewrite H. Qed.

Lemma tab_remove_active_inactive t : "active" ∉ tab_classList (tab_remove_active t).
Proof.
  simpl. intros [_ Hnot]%elem_of_difference. apply Hnot. by apply elem_of_singleton.
Qed.

Lemma tab_add_active_active t : "active" ∈ tab_classList (tab_add_active t).
Proof. simpl. apply elem_of_union. right. by apply elem_of_singleton. Qed.

Lemma queryNavTab_found tabName ts :
  (∃ t, t ∈ ts ∧ tab_dataset t = Some tabName) →
  ∃ i t, queryNavTab tabName (tab_remove_active <$> ts) = Some (i, tab_remove_active t)
         ∧ ts !! i = Some t ∧ tab_dataset t = Some tabName.
Proof.
  intros (t & Hin & Hname). unfold queryNavTab.
  destruct (list_find_elem_of (λ t, tab_dataset t = Some tabName)
              (tab_remove_active <$> ts) (tab_remove_active t)) as [[i t'] Hfind].
  { apply list_elem_of_fmap. eauto. }
  { done. }
  pose proof Hfind as (Hi & Ht' & _)%list_find_Some.
  apply list_lookup_fmap_Some in Hi as (t0 & -> & Hi).
  exists i, t0. by rewrite Hfind.
Qed.

(** With a tab button for X on the page, [switchTab X] leaves exactly one
    tab button with the [active] class, a button for X, and exactly one
    region shown. *)
Lemma switchTab_with_button X d :
  X = "tree" ∨ X = "recent" →
  tabsPresent d = true →
  (∃ t, t ∈ tabs d ∧ tab_dataset t = Some X) →
  ∃ d' i t,
    switchTab X d = Some d'
    ∧ tabs d' !! i = Some t
    ∧ tab_dataset t = Some X
    ∧ "active" ∈ tab_classList t
    ∧ (∀ j t', tabs d' !! j = Some t' → "active" ∈ tab_classList t' → j = i)
    ∧ (X = "tree" → treeSection d' = Some "block" ∧ recentSection d' = Some "none")
    ∧ (X = "recent" → treeSection d' = Some "none" ∧ recentSection d' = Some "block").
Proof.
  intros HX Hguard Hbtn.
  assert (cssPlain X = true) as Hplain by (by destruct HX as [-> | ->]).
  unfold tabsPresent in Hguard.
  apply andb_true_iff in Hguard as [[_ Htree%bool_decide_eq_true]%andb_true_iff
                                     Hrecent%bool_decide_eq_true].
  destruct Htree as [dt Htree], Hrecent as [dr Hrecent].
  destruct (queryNavTab_found X (tabs d) Hbtn) as (i & t & Hfind & Hi & Hname).
  rewrite (switchTab_plain X d Hplain), Hfind.
  eexists _, i, (tab_add_active (tab_remove_active t)). split_and!.
  - reflexivity.
  - simpl. apply list_lookup_insert_eq. rewrite length_fmap. by eapply lookup_lt_Some.
  - done.
  - apply tab_add_active_active.
  - simpl. intros j t' Hj Hact. destruct (decide (j = i)) as [->|Hne]; [done|].
    rewrite list_lookup_insert_ne in Hj by done.
    apply list_lookup_fmap_Some in Hj as (t0 & -> & _).
    by apply tab_remove_active_inactive in Hact.
  - intros ->. simpl. by rewrite Htree, Hrecent.
  - intros ->. simpl. by rewrite Htree, Hrecent.
Qed.

(** C3 (amended): for X one of [tree] and [recent], on a page that passed
    the setup guard, [switchTab X] shows exactly one region (the region of X
    has display [block], the other display [none]) and leaves at most one
    tab button with the [active] class, which then is a button for X: exactly
    one when the page has a tab button for X, none when it has not. *)
Theorem C3_switchTab_one_region_at_most_one_button X d :
  X = "tree" ∨ X = "recent" →
  tabsPresent d = true →
  ∃ d',
    switchTab X d = Some d'
    ∧ (X = "tree" → treeSection d' = Some "block" ∧ recentSection d' = Some "none")
    ∧ (X = "recent" → treeSection d' = Some "none" ∧ recentSection d' = Some "block")
    ∧ (∀ j k tj tk,
         tabs d' !! j = Some tj → tabs d' !! k = Some tk →
         "active" ∈ tab_classList tj → "active" ∈ tab_classList tk → j = k)
    ∧ (∀ j t, tabs d' !! j = Some t → "active" ∈ tab_classList t →
         tab_dataset t = Some X)
    ∧ ((∃ t, t ∈ tabs d ∧ tab_dataset t = Some X) →
       ∃ i t, tabs d' !! i = Some t ∧ tab_dataset t = Some X
              ∧ "active" ∈ tab_classList t)
    ∧ ((∀ t, t ∈ tabs d → tab_dataset t ≠ Some X) →
       ∀ t, t ∈ tabs d' → "active" ∉ tab_classList t).
Proof.
  intros HX Hguard.
  assert (cssPlain X = true) as Hplain by (by destruct HX as [-> | ->]).
  pose proof Hguard as Hg. unfold tabsPresent in Hg.
  apply andb_true_iff in Hg as [[_ Htree%bool_decide_eq_true]%andb_true_iff
                                 Hrecent%bool_decide_eq_true].
  destruct Htree as [dt Htree], Hrecent as [dr Hrecent].
  assert (∀ d' : Document,
            treeSection d'
            = (λ _, if bool_decide (X = "tree") then "block" else "none") <$> treeSection d →
            recentSection d'
            = (λ _, if bool_decide (X = "recent") then "block" else "none")
                <$> recentSection d →
            (X = "tree" → treeSection d' = Some "block" ∧ recentSection d' = Some "none")
            ∧ (X = "recent" → treeSection d' = Some "none" ∧ recentSection d' = Some "block"))
    as Hregions.
  { intros d' -> ->. rewrite Htree, Hrecent. split; by intros ->. }
  destruct (queryNavTab X (tab_remove_active <$> tabs d)) as [[i a]|] eqn:Hfind.
  - destruct (switchTab_with_button X d HX Hguard)
      as (d' & i' & t & Hsw & Hi & Hname & Hact & Huniq & Ht & Hr).
    { apply list_find_Some in Hfind as (Hi & Hname & _).
      apply list_lookup_fmap_Some in Hi as (t0 & -> & Hi).
      exists t0. split; [by eapply list_elem_of_lookup_2 | done]. }
    exists d'. split; [done|]. split; [done|]. split; [done|]. split_and!.
    + intros j k tj tk Hj Hk Haj Hak.
      by rewrite (Huniq j tj Hj Haj), (Huniq k tk Hk Hak).
    + intros j t' Hj Haj. rewrite (Huniq j t' Hj Haj) in Hj. congruence.
    + intros _. by exists i', t.
    + intros Hnone. apply list_find_Some in Hfind as (Hi' & Hname' & _).
      apply list_lookup_fmap_Some in Hi' as (t0 & -> & Hi').
      destruct (Hnone t0); [by eapply list_elem_of_lookup_2 | done].
  - rewrite (switchTab_plain X d Hplain), Hfind.
    eexists. split; [reflexivity|].
    assert (∀ t, t ∈ tab_remove_active <$> tabs d → "active" ∉ tab_classList t) as Hoff.
    { intros t [t0 [-> _]]%list_elem_of_fmap. apply tab_remove_active_inactive. }
    destruct (Hregions (with_sections
                          (if bool_decide (X = "tree") then "block" else "none")
                          (if bool_decide (X = "recent") then "block" else "none")
                          (with_tabs (fmap tab_remove_active) d))) as [Ht Hr];
      [done | done |].
    split; [done|]. split; [done|]. simpl. split_and!.
    + intros j k tj tk Hj _ Haj _.
      destruct (Hoff tj); [by eapply list_elem_of_lookup_2 | done].
    + intros j t Hj Haj. destruct (Hoff t); [by eapply list_elem_of_lookup_2 | done].
    + intros (t & Hin & Hname). apply list_find_None in Hfind.
      rewrite Forall_forall in Hfind.
      destruct (Hfind (tab_remove_active t)); [|done].
      apply list_elem_of_fmap. eauto.
    + intros _. exact Hoff.
Qed.

(** C7: on a page that passes the setup guard, with nothing stored under
    the preference key, [init] shows the tree region (display [block]) and
    hides the recent region (display [none]). *)
Theorem C7_default_tab_is_tree d :
  tabsPresent d = true →
  localStorage d !! STORAGE_KEY = None →
  ∃ st, init d = Some st
        ∧ treeSection (document st) = Some "block"
        ∧ recentSection (document st) = Some "none".
Proof.
  intros Hguard Hstore.
  pose proof Hguard as Hg. unfold tabsPresent in Hg.
  apply andb_true_iff in Hg as [[_ Htree%bool_decide_eq_true]%andb_true_iff
                                 Hrecent%bool_decide_eq_true].
  destruct Htree as [dt Htree], Hrecent as [dr Hrecent].
  unfold init, setupSidebarTabs, savedTab. rewrite Hguard, Hstore.
  rewrite switchTab_plain by done. simpl.
  eexists. split; [reflexivity|].
  unfold setupMobileSearch.
  destruct (_ && _); simpl;
    destruct (queryNavTab _ _) as [[i t]|]; simpl; by rewrite Htree, Hrecent.
Qed.

Lemma tabNames_remove_active (ts : list TabButton) :
  tab_dataset <$> (tab_remove_active <$> ts) = tab_dataset <$> ts.
Proof. rewrite <- list_fmap_compose. by apply list_fmap_ext. Qed.

Lemma switchTab_tabNames tabName d d' :
  switchTab tabName d = Some d' →
  tab_dataset <$> tabs d' = tab_dataset <$> tabs d.
Proof.
  unfold switchTab. destruct (cssPlain tabName); [|discriminate].
  intros [= <-]. simpl.
  destruct (queryNavTab _ _) as [[i t]|] eqn:Hfind; simpl;
    [|apply tabNames_remove_active].
  apply list_find_Some in Hfind as (Hi & _ & _).
  rewrite list_fmap_insert. simpl.
  rewrite list_insert_id; [apply tabNames_remove_active|].
  by rewrite list_lookup_fmap, Hi.
Qed.

Lemma switchTab_frame tabName d d' :
  switchTab tabName d = Some d' →
  length (tabs d') = length (tabs d)
  ∧ (is_Some (treeSection d') ↔ is_Some (treeSection d))
  ∧ (is_Some (recentSection d') ↔ is_Some (recentSection d))
  ∧ menuBtn d' = menuBtn d ∧ sidebar d' = sidebar d ∧ overlay d' = overlay d
  ∧ body d' = body d ∧ searchBtn d' = searchBtn d
  ∧ searchOverlay d' = searchOverlay d ∧ searchClose d' = searchClose d
  ∧ searchInput d' = searchInput d ∧ searchResults d' = searchResults d
  ∧ bottomSearchBtn d' = bottomSearchBtn d ∧ localStorage d' = localStorage d.
Proof.
  intros H. pose proof (switchTab_tabNames _ _ _ H) as Hn.
  apply (f_equal length) in Hn. rewrite !length_fmap in Hn.
  unfold switchTab in H. destruct (cssPlain tabName); [|discriminate].
  injection H as <-. split; [exact Hn|].
  destruct (queryNavTab _ _) as [[i t]|]; simpl;
    rewrite !fmap_is_Some; tauto.
Qed.

Lemma tabNamesOk_names d d' :
  tab_dataset <$> tabs d' = tab_dataset <$> tabs d → tabNamesOk d → tabNamesOk d'.
Proof.
  intros Hn Hok t Ht.
  assert (tab_dataset t ∈ tab_dataset <$> tabs d) as Hin.
  { rewrite <- Hn. apply list_elem_of_fmap. eauto. }
  apply list_elem_of_fmap in Hin as (t0 & -> & Ht0). by apply Hok.
Qed.

(** ** The page as a whole *)

Section Page.

Variable lunr : list Doc → option Index.
Variable BASE_URL : option string.

Lemma performMobileSearch_frame st :
  let st' := snd (performMobileSearch BASE_URL st) in
  searchIndex st' = searchIndex st
  ∧ searchMetadata st' = searchMetadata st
  ∧ fetchPending st' = fetchPending st
  ∧ setItemLog st' = setItemLog st
  ∧ tabs (document st') = tabs (document st)
  ∧ treeSection (document st') = treeSection (document st)
  ∧ recentSection (document st') = recentSection (document st)
  ∧ localStorage (document st') = localStorage (document st)
  ∧ menuBtn (document st') = menuBtn (document st)
  ∧ sidebar (document st') = sidebar (document st)
  ∧ overlay (document st') = overlay (document st)
  ∧ body (document st') = body (document st).
Proof.
  unfold performMobileSearch, showResults, assignResults.
  repeat case_match; simpl; tauto.
Qed.

(** Only the settling of the fetch touches the closure variables. *)
Lemma dispatch_closure ev st st' :
  dispatch lunr BASE_URL ev st = Some st' →
  (∀ r, ev ≠ FetchSettled r) →
  searchIndex st' = searchIndex st
  ∧ searchMetadata st' = searchMetadata st
  ∧ fetchPending st' = fetchPending st.
Proof.
  intros H Hev. destruct ev; unfold dispatch in H; cbv beta iota zeta in H;
    try (injection H as <-; repeat (simpl; case_match); by simpl).
  - unfold clickNavTab in H. repeat case_match; simplify_option_eq; by simpl.
  - by destruct (Hev r).
  - injection H as <-.
    match goal with |- context [if ?b then _ else st] => destruct b end; [|done].
    pose proof (performMobileSearch_frame st) as F. cbv zeta in F. tauto.
Qed.

(** No handler changes which tab buttons exist, what they are named, or
    whether the two sections exist. *)
Lemma dispatch_tabs ev st st' :
  dispatch lunr BASE_URL ev st = Some st' →
  tab_dataset <$> tabs (document st') = tab_dataset <$> tabs (document st)
  ∧ tabsPresent (document st') = tabsPresent (document st).
Proof.
  intros H.
  assert (∀ d d' : Document,
            length (tabs d') = length (tabs d) →
            (is_Some (treeSection d') ↔ is_Some (treeSection d)) →
            (is_Some (recentSection d') ↔ is_Some (recentSection d)) →
            tabsPresent d' = tabsPresent d) as Hpres.
  { intros d d' Hl Ht Hr. unfold tabsPresent. rewrite Hl.
    by rewrite (bool_decide_ext _ _ Ht), (bool_decide_ext _ _ Hr). }
  destruct ev; unfold dispatch in H; cbv beta iota zeta in H;
    try (injection H as <-; unfold menuResized, menuKeydown, searchKeydown,
           toggleMenu, bottomNavSearchClicked, fetchSettled;
         repeat (simpl; case_match); by simpl).
  - unfold clickNavTab in H. destruct (tabsPresent (document st)) eqn:Hg;
      [|by injection H as <-].
    destruct (tabs (document st) !! i) as [t|]; [|by injection H as <-].
    destruct (switchTab (tabNameOf t) (document st)) as [d|] eqn:Hsw;
      [|discriminate].
    injection H as <-. simpl.
    split; [by eapply switchTab_tabNames|].
    rewrite <- Hg.
    destruct (switchTab_frame _ _ _ Hsw) as (Hl & Ht & Hr & _).
    by apply Hpres.
  - injection H as <-.
    match goal with |- context [if ?b then _ else st] => destruct b end; [|done].
    pose proof (performMobileSearch_frame st) as F. cbv zeta in F.
    destruct F as (_ & _ & _ & _ & Htabs & Ht & Hr & _).
    split; [by rewrite Htabs|].
    apply Hpres; by rewrite ?Htabs, ?Ht, ?Hr.
Qed.

(** A handler either leaves the storage and its write trace alone, or it is
    the click handler of a tab button and writes that button's name. *)
Lemma dispatch_storage ev st st' :
  dispatch lunr BASE_URL ev st = Some st' →
  (setItemLog st' = setItemLog st
   ∧ localStorage (document st') = localStorage (document st))
  ∨ (∃ i t, ev = ClickNavTab i
            ∧ tabsPresent (document st) = true
            ∧ tabs (document st) !! i = Some t
            ∧ setItemLog st' = setItemLog st ++ [(STORAGE_KEY, tabNameOf t)]
            ∧ localStorage (document st') !! STORAGE_KEY = Some (tabNameOf t)).
Proof.
  intros H.
  destruct ev; unfold dispatch in H; cbv beta iota zeta in H;
    try (left; injection H as <-; unfold menuResized, menuKeydown, searchKeydown,
           toggleMenu, bottomNavSearchClicked, fetchSettled;
         repeat (simpl; case_match); by simpl).
  - unfold clickNavTab in H. destruct (tabsPresent (document st)) eqn:Hg;
      [|left; by injection H as <-].
    destruct (tabs (document st) !! i) as [t|] eqn:Hi; [|left; by injection H as <-].
    destruct (switchTab (tabNameOf t) (document st)) as [d|] eqn:Hsw;
      [|discriminate].
    injection H as <-. right. exists i, t. simpl.
    split_and!; try done. apply lookup_insert_eq.
  - left. injection H as <-.
    match goal with |- context [if ?b then _ else st] => destruct b end; [|done].
    pose proof (performMobileSearch_frame st) as F. cbv zeta in F. tauto.
Qed.

Lemma run_app evs1 evs2 st :
  run lunr BASE_URL (evs1 ++ evs2) st
  = st' ← run lunr BASE_URL evs1 st; run lunr BASE_URL evs2 st'.
Proof.
  revert st. induction evs1 as [|ev evs1 IH]; intros st; simpl; [done|].
  destruct (dispatch lunr BASE_URL ev st) as [st1|]; simpl; [apply IH | done].
Qed.

Lemma init_start d st0 :
  init d = Some st0 →
  searchIndex st0 = None ∧ searchMetadata st0 = None ∧ setItemLog st0 = []
  ∧ tab_dataset <$> tabs (document st0) = tab_dataset <$> tabs d
  ∧ tabsPresent (document st0) = tabsPresent d.
Proof.
  unfold init, setupSidebarTabs, setupMobileSearch.
  destruct (tabsPresent d) eqn:Hg; simpl.
  - destruct (switchTab (savedTab d) d) as [d'|] eqn:Hsw; simpl; [|discriminate].
    intros [= <-].
    assert (tabsPresent d' = true) as Hg'.
    { rewrite <- Hg. destruct (switchTab_frame _ _ _ Hsw) as (Hl & Ht & Hr & _).
      unfold tabsPresent. rewrite Hl.
      by rewrite (bool_decide_ext _ _ Ht), (bool_decide_ext _ _ Hr). }
    pose proof (switchTab_tabNames _ _ _ Hsw).
    case_match; simpl; by rewrite ?Hg'.
  - intros [= <-]. case_match; simpl; by rewrite ?Hg.
Qed.

Lemma run_tabs evs st st' :
  run lunr BASE_URL evs st = Some st' →
  tab_dataset <$> tabs (document st') = tab_dataset <$> tabs (document st)
  ∧ tabsPresent (document st') = tabsPresent (document st).
Proof.
  revert st. induction evs as [|ev evs IH]; intros st; simpl.
  - by intros [= <-].
  - destruct (dispatch lunr BASE_URL ev st) as [st1|] eqn:Hd; simpl; [|discriminate].
    intros H. destruct (IH _ H) as [-> ->]. by eapply dispatch_tabs.
Qed.

Lemma tabNameOf_ok d i t :
  tabNamesOk d → tabs d !! i = Some t →
  tab_dataset t = Some (tabNameOf t) ∧ (tabNameOf t = "tree" ∨ tabNameOf t = "recent").
Proof.
  intros Hok Hi. unfold tabNameOf.
  destruct (Hok t) as [-> | ->]; [by eapply list_elem_of_lookup_2 | by auto..].
Qed.

Lemma dispatch_logOk ev st st' :
  dispatch lunr BASE_URL ev st = Some st' →
  tabNamesOk (document st) → logOk st → logOk st'.
Proof.
  intros Hd Hok Hlog.
  destruct (dispatch_storage _ _ _ Hd) as [[Hl _] | (i & t & _ & _ & Hi & Hl & _)];
    unfold logOk; rewrite Hl; [done|].
  intros k v [Hin | [= -> ->]%list_elem_of_singleton]%elem_of_app; [by apply Hlog|].
  by destruct (tabNameOf_ok _ _ _ Hok Hi) as [_ ?].
Qed.

Lemma run_logOk evs st st' :
  run lunr BASE_URL evs st = Some st' →
  tabNamesOk (document st) → logOk st → logOk st'.
Proof.
  revert st. induction evs as [|ev evs IH]; intros st; simpl.
  - by intros [= <-].
  - destruct (dispatch lunr BASE_URL ev st) as [st1|] eqn:Hd; simpl; [|discriminate].
    intros H Hok Hlog. apply (IH _ H).
    + eapply tabNamesOk_names; [|exact Hok]. by eapply dispatch_tabs.
    + by eapply dispatch_logOk.
Qed.

(** On a page whose tab buttons are named [tree] or [recent] every event
    is handled inside the model. *)
Lemma dispatch_total ev st :
  tabNamesOk (document st) → ∃ st', dispatch lunr BASE_URL ev st = Some st'.
Proof.
  intros Hok. destruct ev; try (eexists; reflexivity).
  unfold dispatch, clickNavTab.
  destruct (tabsPresent (document st)); [|by eexists].
  destruct (tabs (document st) !! i) as [t|] eqn:Hi; [|by eexists].
  destruct (tabNameOf_ok _ _ _ Hok Hi) as [_ Hval].
  rewrite switchTab_plain by (by destruct Hval as [-> | ->]).
  simpl. by eexists.
Qed.

Lemma run_total evs st :
  tabNamesOk (document st) → ∃ st', run lunr BASE_URL evs st = Some st'.
Proof.
  revert st. induction evs as [|ev evs IH]; intros st Hok; simpl; [by eexists|].
  destruct (dispatch_total ev st Hok) as [st1 Hd]. rewrite Hd. simpl.
  apply IH. eapply tabNamesOk_names; [|exact Hok]. by eapply dispatch_tabs.
Qed.

Lemma tabNameOf_in_page d d' t :
  tab_dataset <$> tabs d' = tab_dataset <$> tabs d →
  t ∈ tabs d' → ∃ t0, t0 ∈ tabs d ∧ tabNameOf t = tabNameOf t0.
Proof.
  intros Hn Ht.
  assert (tab_dataset t ∈ tab_dataset <$> tabs d) as Hin.
  { rewrite <- Hn. apply list_elem_of_fmap. eauto. }
  apply list_elem_of_fmap in Hin as (t0 & Heq & Ht0).
  exists t0. split; [done|]. unfold tabNameOf. by rewrite Heq.
Qed.

(** Every write so far went to the preference key, with the name of one of
    the page's tab buttons. *)
Lemma run_log_names evs d st st' :
  tab_dataset <$> tabs (document st) = tab_dataset <$> tabs d →
  (∀ k v, (k, v) ∈ setItemLog st →
     k = STORAGE_KEY ∧ ∃ t, t ∈ tabs d ∧ v = tabNameOf t) →
  run lunr BASE_URL evs st = Some st' →
  ∀ k v, (k, v) ∈ setItemLog st' →
    k = STORAGE_KEY ∧ ∃ t, t ∈ tabs d ∧ v = tabNameOf t.
Proof.
  revert st. induction evs as [|ev evs IH]; intros st Hn Hlog; simpl.
  - by intros [= <-].
  - destruct (dispatch lunr BASE_URL ev st) as [st1|] eqn:Hd; simpl; [|discriminate].
    apply IH.
    + destruct (dispatch_tabs _ _ _ Hd) as [-> _]. exact Hn.
    + destruct (dispatch_storage _ _ _ Hd) as [[Hl _] | (i & t & _ & _ & Hi & Hl & _)];
        rewrite Hl; [done|].
      intros k v [Hin | [= -> ->]%list_elem_of_singleton]%elem_of_app; [by apply Hlog|].
      split; [done|]. apply (tabNameOf_in_page d (document st)); [done|].
      by eapply list_elem_of_lookup_2.
Qed.

(** With selector-safe names on every tab button, every event sequence
    runs to its end. *)
Lemma run_total_plain evs d st :
  tab_dataset <$> tabs (document st) = tab_dataset <$> tabs d →
  (∀ t, t ∈ tabs d → cssPlain (tabNameOf t) = true) →
  ∃ st', run lunr BASE_URL evs st = Some st'.
Proof.
  revert st. induction evs as [|ev evs IH]; intros st Hn Hplain; simpl; [by eexists|].
  assert (∃ st1, dispatch lunr BASE_URL ev st = Some st1) as [st1 Hd].
  { destruct ev; try (eexists; reflexivity).
    unfold dispatch, clickNavTab.
    destruct (tabsPresent (document st)); [|by eexists].
    destruct (tabs (document st) !! i) as [t|] eqn:Hi; [|by eexists].
    destruct (tabNameOf_in_page d (document st) t Hn) as (t0 & Ht0 & Heq);
      [by eapply list_elem_of_lookup_2|].
    rewrite switchTab_plain by (rewrite Heq; by apply Hplain).
    simpl. by eexists. }
  rewrite Hd. simpl. apply IH; [|done].
  destruct (dispatch_tabs _ _ _ Hd) as [-> _]. exact Hn.
Qed.

(** C8 (amended): every value written to the storage goes to the key
    [memex-sidebar-tab] and is the name of one of the page's tab buttons
    (its [data-tab], or [undefined] without the attribute): [tree] or
    [recent] when the page's buttons carry only these names.  The click
    handler of a tab button whose name gives a well-formed selector writes
    that name before it returns, and no other event writes. *)
Theorem C8_written_value_is_clicked_name d st0 evs :
  init d = Some st0 →
  (∀ st, run lunr BASE_URL evs st0 = Some st →
     (∀ k v, (k, v) ∈ setItemLog st →
        k = "memex-sidebar-tab" ∧ ∃ t, t ∈ tabs d ∧ v = default "undefined" (tab_dataset t))
     ∧ (∀ i t, tabsPresent d = true → tabs (document st) !! i = Some t →
          cssPlain (default "undefined" (tab_dataset t)) = true →
          ∃ st',
            dispatch lunr BASE_URL (ClickNavTab i) st = Some st'
            ∧ setItemLog st'
              = setItemLog st ++ [("memex-sidebar-tab", default "undefined" (tab_dataset t))]
            ∧ localStorage (document st') !! "memex-sidebar-tab"
              = Some (default "undefined" (tab_dataset t)))
     ∧ (∀ ev st', (∀ i, ev ≠ ClickNavTab i) →
          dispatch lunr BASE_URL ev st = Some st' →
          setItemLog st' = setItemLog st
          ∧ localStorage (document st') = localStorage (document st)))
  ∧ ((∀ t, t ∈ tabs d → cssPlain (default "undefined" (tab_dataset t)) = true) →
     ∃ st, run lunr BASE_URL evs st0 = Some st)
  ∧ (tabNamesOk d →
     ∃ st, run lunr BASE_URL evs st0 = Some st
           ∧ ∀ k v, (k, v) ∈ setItemLog st →
               k = "memex-sidebar-tab" ∧ (v = "tree" ∨ v = "recent")).
Proof.
  intros Hinit.
  destruct (init_start _ _ Hinit) as (_ & _ & Hlog0 & Hn0 & Hp0).
  split_and!.
  - intros st Hrun. destruct (run_tabs _ _ _ Hrun) as [Hn Hp]. split_and!.
    + apply (run_log_names evs d st0 st Hn0); [|done].
      rewrite Hlog0. intros k v Hin. by apply elem_of_nil in Hin.
    + intros i t Hg Hi Hplain.
      unfold dispatch, clickNavTab. rewrite Hp, Hp0, Hg, Hi.
      unfold tabNameOf. rewrite (switchTab_plain _ _ Hplain). simpl.
      eexists. split_and!; [reflexivity | done | apply lookup_insert_eq].
    + intros ev st' Hev Hd.
      destruct (dispatch_storage _ _ _ Hd) as [? | (i & t & -> & _)]; [done|].
      by destruct (Hev i).
  - intros Hplain. by apply (run_total_plain evs d st0 Hn0).
  - intros Hok.
    assert (tabNamesOk (document st0)) as Hok0 by (by eapply tabNamesOk_names).
    destruct (run_total evs st0 Hok0) as [st Hrun]. exists st. split; [done|].
    apply (run_logOk _ _ _ Hrun Hok0). unfold logOk. rewrite Hlog0.
    intros k v Hin. by apply elem_of_nil in Hin.
Qed.


(** The metadata is stored before the index is built: when the builder
    throws, or the response has no documents, the metadata stays and the
    index remains unset. *)
Lemma fetchSettled_without_index data st :
  fetchPending st = true →
  searchIndex st = None →
  data_documents data = None ∨ (∃ docs, data_documents data = Some docs ∧ lunr docs = None) →
  searchIndex (fetchSettled lunr (Json data) st) = None
  ∧ searchMetadata (fetchSettled lunr (Json data) st) = data_metadata data.
Proof.
  intros Hp Hi Hfail. unfold fetchSettled. rewrite Hp.
  destruct Hfail as [-> | (docs & -> & ->)]; simpl; by rewrite Hi.
Qed.

(** What holds of the closure variables after the events [evs]. *)
Lemma run_search_state d st0 evs st :
  init d = Some st0 →
  run lunr BASE_URL evs st0 = Some st →
  (fetchPending st = true → searchIndex st = None ∧ searchMetadata st = None)
  ∧ (∀ idx, searchIndex st = Some idx →
       ∃ data docs, FetchSettled (Json data) ∈ evs
                    ∧ data_documents data = Some docs
                    ∧ lunr docs = Some idx
                    ∧ searchMetadata st = data_metadata data)
  ∧ (Forall (wellShaped lunr) evs → bothOrNeither st).
Proof.
  intros Hinit. revert st. induction evs as [|ev evs IH] using rev_ind; intros st.
  - simpl. intros [= <-].
    destruct (init_start _ _ Hinit) as (Hi & Hm & _).
    unfold bothOrNeither. rewrite Hi, Hm. split_and!; [done | done | auto].
  - rewrite run_app.
    destruct (run lunr BASE_URL evs st0) as [st1|] eqn:Hrun; simpl; [|discriminate].
    destruct (dispatch lunr BASE_URL ev st1) as [st2|] eqn:Hd; simpl; [|discriminate].
    intros [= <-]. destruct (IH st1 eq_refl) as (Ha & Hb & Hc).
    assert ((∃ r, ev = FetchSettled r) ∨ ∀ r, ev ≠ FetchSettled r) as Hcase.
    { destruct ev; try (right; discriminate). left. by eexists. }
    assert (searchIndex st2 = searchIndex st1 ∧ searchMetadata st2 = searchMetadata st1
            ∧ fetchPending st2 = fetchPending st1 →
            (fetchPending st2 = true → searchIndex st2 = None ∧ searchMetadata st2 = None)
            ∧ (∀ idx, searchIndex st2 = Some idx →
                 ∃ data docs, FetchSettled (Json data) ∈ evs ++ [ev]
                              ∧ data_documents data = Some docs
                              ∧ lunr docs = Some idx
                              ∧ searchMetadata st2 = data_metadata data)
            ∧ (Forall (wellShaped lunr) (evs ++ [ev]) → bothOrNeither st2)) as Hsame.
    { intros (Hi & Hm & Hp). unfold bothOrNeither. rewrite Hi, Hm, Hp. split_and!.
      - exact Ha.
      - intros idx Hidx. destruct (Hb idx Hidx) as (data & docs & Hin & ?).
        exists data, docs. split; [|done]. apply elem_of_app. by left.
      - intros [Hall _]%Forall_app. by apply Hc. }
    destruct Hcase as [[r ->] | Hev]; [|by apply Hsame, (dispatch_closure ev)].
    simpl in Hd. injection Hd as <-. unfold fetchSettled in *.
    destruct (fetchPending st1) eqn:Hp; [|by apply Hsame].
    destruct (Ha eq_refl) as [Hi Hm].
    destruct r as [| | |data]; try (unfold bothOrNeither; simpl; rewrite Hi, Hm;
                                     split_and!; [done | done | auto]).
    destruct (data_documents data) as [docs|] eqn:Hdocs;
      [destruct (lunr docs) as [idx|] eqn:Hlunr|]; simpl; rewrite ?Hi.
    + split_and!; [done| |].
      * intros idx' [= <-]. exists data, docs. split_and!; try done.
        apply elem_of_app. right. by apply list_elem_of_singleton.
      * intros [_ Hws]%Forall_app. rewrite Forall_singleton in Hws. simpl in Hws.
        left. split; [by eexists | apply Hws].
    + split_and!; [done | done |].
      intros [_ Hws]%Forall_app. rewrite Forall_singleton in Hws. simpl in Hws.
      destruct Hws as (_ & docs' & Hd' & [idx' Hl']). rewrite Hdocs in Hd'.
      injection Hd' as <-. by rewrite Hlunr in Hl'.
    + split_and!; [done | done |].
      intros [_ Hws]%Forall_app. rewrite Forall_singleton in Hws. simpl in Hws.
      destruct Hws as (_ & docs' & Hd' & _). by rewrite Hdocs in Hd'.
Qed.

(** C1 (amended): in every state reached from [init], an index that is
    present was built from the documents of a fetched response and the
    stored metadata is the metadata field of that same response; if every
    response has the expected shape and the builder accepts its documents,
    index and metadata are both present or both absent; and a search run
    while the index is absent clears the rendered results. *)
Theorem C1_index_with_metadata_of_same_response d st0 evs st :
  init d = Some st0 →
  run lunr BASE_URL evs st0 = Some st →
  (∀ idx, searchIndex st = Some idx →
     ∃ data docs, FetchSettled (Json data) ∈ evs
                  ∧ data_documents data = Some docs
                  ∧ lunr docs = Some idx
                  ∧ searchMetadata st = data_metadata data)
  ∧ (Forall (wellShaped lunr) evs → bothOrNeither st)
  ∧ (searchIndex st = None →
     ∀ value old,
       searchInput (document st) = Some value →
       searchResults (document st) = Some old →
       performMobileSearch BASE_URL st
       = (Normal, on_document (with_searchResults (fmap (λ _, ""))) st)).
Proof.
  intros Hinit Hrun.
  destruct (run_search_state _ _ _ _ Hinit Hrun) as (_ & Hb & Hc).
  split_and!; [exact Hb | exact Hc |].
  intros Hnone value old Hin Hres.
  eapply performMobileSearch_cleared; eauto.
Qed.

End Page.

(** * The properties on the sample page *)

Example trim_sample : trim (String "009"%char "  a b  ") = "a b".
Proof. reflexivity. Qed.

Example escapeHtml_sample : escapeHtml "a < b & c" = "a &lt; b &amp; c".
Proof. reflexivity. Qed.

(** The prefix [Mem] has no exact match; the retry with [Mem*] finds the
    document [a], which is rendered with its title escaped and its tags as
    they are. *)
Example search_sample :
  searchResults (document (snd (performMobileSearch (Some "/kb") (typed " Mem " sampleLoaded))))
  = Some ("<div class=" +:+ dq +:+ "search-result" +:+ dq +:+ ">"
            +:+ "<a href=" +:+ dq +:+ "/kb/a.html" +:+ dq +:+ ">Memex &lt;kb&gt;</a>"
            +:+ "<div class=" +:+ dq +:+ "search-tags" +:+ dq +:+ "><b>x</b>, y</div>"
            +:+ "</div>")
  ∧ searchCalls (snd (performMobileSearch (Some "/kb") (typed " Mem " sampleLoaded)))
    = ["Mem"; "Mem*"].
Proof. split; reflexivity. Qed.

(** A malformed query makes the index throw; the handler shows the
    "No results found" message. *)
Example search_error_sample :
  performMobileSearch None (typed "title:" sampleLoaded)
  = (Normal,
     on_document (with_searchResults (fmap (λ _, noResultsHtml)))
       (log_search ["title:"] (typed "title:" sampleLoaded))).
Proof. reflexivity. Qed.

Lemma C4_witness :
  searchInput (document (typed "  " sampleLoaded)) = Some "  "
  ∧ searchResults (document (typed "  " sampleLoaded)) = Some ""
  ∧ trim "  " = ""
  ∧ fst (performMobileSearch None (typed "  " sampleLoaded)) = Normal
  ∧ searchResults (document (snd (performMobileSearch None (typed "  " sampleLoaded))))
    = Some ""
  ∧ searchCalls (snd (performMobileSearch None (typed "  " sampleLoaded))) = [].
Proof.
  split_and!; [reflexivity..|].
  exact (proj2 (proj2 (C4_blank_or_unloaded_clears_without_search None
                         (typed "  " sampleLoaded) "  " ""
                         eq_refl eq_refl (or_introl eq_refl)))).
Defined.

Lemma C2_witness :
  searchInput (document (typed "foo" sampleStart)) = Some "foo"
  ∧ searchResults (document (typed "foo" sampleStart)) = Some ""
  ∧ searchIndex (typed "foo" sampleStart) = None
  ∧ searchResults (document (snd (performMobileSearch None (typed "foo" sampleStart))))
    = Some "".
Proof.
  split_and!; [reflexivity..|].
  exact (proj1 (C2_unavailable_clears_results None (typed "foo" sampleStart) "foo" ""
                  eq_refl eq_refl eq_refl)).
Defined.

(** With the index not loaded, the query [foo] does not render the
    "No results found" message. *)
Lemma C2_counterexample :
  ¬ (∀ (BASE_URL : option string) (st : State) (value old : string),
       searchInput (document st) = Some value →
       searchResults (document st) = Some old →
       trim value ≠ "" →
       searchIndex st = None →
       searchResults (document (snd (performMobileSearch BASE_URL st)))
       = Some noResultsHtml).
Proof.
  intros H.
  specialize (H None (typed "foo" sampleStart) "foo" "" eq_refl eq_refl).
  assert (trim "foo" ≠ "") as Hq by discriminate.
  specialize (H Hq eq_refl). vm_compute in H. discriminate H.
Qed.

Lemma C5_witness :
  searchInput (document (typed " Mem " sampleLoaded)) = Some " Mem "
  ∧ searchResults (document (typed " Mem " sampleLoaded)) = Some ""
  ∧ searchIndex (typed " Mem " sampleLoaded) = Some (titleIndex sampleDocs)
  ∧ trim " Mem " ≠ ""
  ∧ titleIndex sampleDocs (trim " Mem ") = Hits []
  ∧ searchCalls (snd (performMobileSearch None (typed " Mem " sampleLoaded)))
    = ["Mem"; "Mem*"]
  ∧ (fst (performMobileSearch None (typed " Mem " sampleLoaded)),
     searchResults (document (snd (performMobileSearch None (typed " Mem " sampleLoaded)))))
    = (Normal,
       Some ("<div class=" +:+ dq +:+ "search-result" +:+ dq +:+ ">"
               +:+ "<a href=" +:+ dq +:+ "/a.html" +:+ dq +:+ ">Memex &lt;kb&gt;</a>"
               +:+ "<div class=" +:+ dq +:+ "search-tags" +:+ dq +:+ "><b>x</b>, y</div>"
               +:+ "</div>")).
Proof.
  assert (trim " Mem " ≠ "") as Hq by discriminate.
  split_and!; [reflexivity | reflexivity | reflexivity | exact Hq | reflexivity | |];
    destruct (proj1 (C5_wildcard_retry_and_errors None (typed " Mem " sampleLoaded)
                       " Mem " "" (titleIndex sampleDocs) eq_refl eq_refl eq_refl Hq)
                eq_refl) as [Hcalls Hshown].
  - exact Hcalls.
  - exact Hshown.
Defined.

(** The results for [a], [constructor] and [b], of which only [a] has
    metadata: [b] is skipped, [constructor] is rendered. *)
Lemma C6_witness :
  searchInput (document sampleStale) = Some "Memex"
  ∧ searchResults (document sampleStale) = Some ""
  ∧ searchIndex sampleStale = Some (titleIndex staleDocs)
  ∧ searchMetadata sampleStale = Some sampleMetadata
  ∧ trim "Memex" ≠ ""
  ∧ fst (runSearch (titleIndex staleDocs) (trim "Memex"))
    = [ {| ref := "a" |}; {| ref := "constructor" |}; {| ref := "b" |} ]
  ∧ sampleMetadata !! "constructor" = None
  ∧ sampleMetadata !! "b" = None
  ∧ searchResults (document (snd (performMobileSearch None sampleStale)))
    = Some ("<div class=" +:+ dq +:+ "search-result" +:+ dq +:+ ">"
              +:+ "<a href=" +:+ dq +:+ "/a.html" +:+ dq +:+ ">Memex &lt;kb&gt;</a>"
              +:+ "<div class=" +:+ dq +:+ "search-tags" +:+ dq +:+ "><b>x</b>, y</div>"
              +:+ "</div>"
              +:+ "<div class=" +:+ dq +:+ "search-result" +:+ dq +:+ ">"
              +:+ "<a href=" +:+ dq +:+ "/undefined" +:+ dq +:+ "></a>"
              +:+ "</div>").
Proof.
  assert (trim "Memex" ≠ "") as Hq by discriminate.
  split_and!; [reflexivity | reflexivity | reflexivity | reflexivity | exact Hq
              | reflexivity | reflexivity | reflexivity |].
  exact (proj1 (C6_inherited_key_not_skipped None sampleStale "Memex" ""
                  (titleIndex staleDocs) sampleMetadata
                  {| ref := "a" |} [ {| ref := "constructor" |}; {| ref := "b" |} ]
                  eq_refl eq_refl eq_refl eq_refl Hq eq_refl)).
Defined.

Lemma C3_witness :
  ("recent" = "tree" ∨ "recent" = "recent")
  ∧ tabsPresent samplePage = true
  ∧ ∃ d',
      switchTab "recent" samplePage = Some d'
      ∧ treeSection d' = Some "none" ∧ recentSection d' = Some "block"
      ∧ (∀ j k tj tk,
           tabs d' !! j = Some tj → tabs d' !! k = Some tk →
           "active" ∈ tab_classList tj → "active" ∈ tab_classList tk → j = k)
      ∧ ∃ i t, tabs d' !! i = Some t ∧ tab_dataset t = Some "recent"
               ∧ "active" ∈ tab_classList t.
Proof.
  split; [by right|]. split; [reflexivity|].
  destruct (C3_switchTab_one_region_at_most_one_button "recent" samplePage
              (or_intror eq_refl) eq_refl)
    as (d' & Hsw & _ & Hrecent & Hone & _ & Hsome & _).
  exists d'. destruct (Hrecent eq_refl) as [Htree Hrec].
  split_and!; [exact Hsw | exact Htree | exact Hrec | exact Hone |].
  apply Hsome. exists (navTab "recent"). split; [|reflexivity].
  apply list_elem_of_In. simpl. auto.
Defined.

(** On a page that passes the setup guard with a [tree] button only,
    switching to [recent] leaves no tab button with the [active] class. *)
Lemma C3_counterexample :
  ¬ (∀ (X : string) (d d' : Document),
       X = "tree" ∨ X = "recent" →
       tabsPresent d = true →
       switchTab X d = Some d' →
       ∃ i t, tabs d' !! i = Some t
              ∧ "active" ∈ tab_classList t
              ∧ ∀ j t', tabs d' !! j = Some t' → "active" ∈ tab_classList t' → j = i).
Proof.
  intros H.
  destruct (H "recent" treeOnlyPage
              (with_sections "none" "block"
                 (with_tabs (λ _, [tab_remove_active (navTab "tree")]) treeOnlyPage))
              (or_intror eq_refl) eq_refl eq_refl)
    as (i & t & Hi & Hact & _).
  destruct i as [|i]; simpl in Hi; [|by destruct i].
  injection Hi as <-.
  apply (bool_decide_pack ("active" ∈ tab_classList (tab_remove_active (navTab "tree"))))
    in Hact.
  vm_compute in Hact. exact Hact.
Qed.

Lemma C7_witness :
  tabsPresent samplePage = true
  ∧ localStorage samplePage !! STORAGE_KEY = None
  ∧ ∃ st, init samplePage = Some st
          ∧ treeSection (document st) = Some "block"
          ∧ recentSection (document st) = Some "none".
Proof.
  split_and!; [reflexivity | reflexivity |].
  exact (C7_default_tab_is_tree samplePage eq_refl eq_refl).
Defined.

Lemma C8_witness :
  init samplePage = Some sampleStart
  ∧ run sampleLunr None [ClickNavTab 1; Keydown "Escape"] sampleStart
    = Some sampleRecentClicked
  ∧ setItemLog sampleRecentClicked = [("memex-sidebar-tab", "recent")]
  ∧ ∀ k v, (k, v) ∈ setItemLog sampleRecentClicked →
      k = "memex-sidebar-tab"
      ∧ ∃ t, t ∈ tabs samplePage ∧ v = default "undefined" (tab_dataset t).
Proof.
  split_and!; [reflexivity | vm_compute; reflexivity | reflexivity |].
  assert (run sampleLunr None [ClickNavTab 1; Keydown "Escape"] sampleStart
          = Some sampleRecentClicked) as Hrun by (vm_compute; reflexivity).
  exact (proj1 (proj1 (C8_written_value_is_clicked_name sampleLunr None samplePage
                         sampleStart [ClickNavTab 1; Keydown "Escape"] eq_refl)
                  sampleRecentClicked Hrun)).
Defined.

(** A click on a tab button without [data-tab] writes [undefined] to the
    preference key. *)
Lemma C8_counterexample :
  ¬ (∀ (lunr : list Doc → option Index) (BASE_URL : option string)
       (d : Document) (st0 : State) (evs : list Event) (st : State),
       init d = Some st0 →
       run lunr BASE_URL evs st0 = Some st →
       ∀ k v, (k, v) ∈ setItemLog st →
         k = "memex-sidebar-tab" ∧ (v = "tree" ∨ v = "recent")).
Proof.
  intros H.
  assert (run sampleLunr None [ClickNavTab 2] sampleUnnamedStart
          = Some sampleUnnamedClicked) as Hrun by (vm_compute; reflexivity).
  destruct (H sampleLunr None unnamedTabPage sampleUnnamedStart [ClickNavTab 2]
              sampleUnnamedClicked eq_refl Hrun "memex-sidebar-tab" "undefined")
    as [_ [Hv | Hv]]; [|discriminate Hv..].
  apply list_elem_of_In. vm_compute. auto.
Qed.



Lemma C1_witness :
  init samplePage = Some sampleStart
  ∧ run sampleLunr None [FetchSettled (Json sampleData)] sampleStart = Some sampleLoaded
  ∧ Forall (wellShaped sampleLunr) [FetchSettled (Json sampleData)]
  ∧ bothOrNeither sampleLoaded.
Proof.
  assert (Forall (wellShaped sampleLunr) [FetchSettled (Json sampleData)]) as Hws.
  { apply Forall_singleton. simpl. split; [by eexists|].
    exists sampleDocs. split; [reflexivity | by eexists]. }
  split_and!; [reflexivity | reflexivity | exact Hws |].
  exact (proj1 (proj2 (C1_index_with_metadata_of_same_response sampleLunr None
                         samplePage sampleStart [FetchSettled (Json sampleData)]
                         sampleLoaded eq_refl eq_refl)) Hws).
Defined.

(** A response with metadata and no documents leaves the metadata set and
    the index unset. *)
Lemma C1_counterexample :
  ¬ (∀ (lunr : list Doc → option Index) (BASE_URL : option string)
       (d : Document) (st0 : State) (evs : list Event) (st : State),
       init d = Some st0 →
       run lunr BASE_URL evs st0 = Some st →
       bothOrNeither st).
Proof.
  intros H.
  specialize (H sampleLunr None samplePage sampleStart
                [FetchSettled (Json metadataOnly)] sampleMetadataOnly eq_refl eq_refl).
  destruct H as [[[idx Hidx] _] | [_ Hmd]]; [discriminate Hidx | discriminate Hmd].
Qed.

(** * Further properties of the script *)

(** ** Class lists *)

Lemma classes_add_remove (cl : gset string) c : (cl ∪ {[c]}) ∖ {[c]} = cl ∖ {[c]}.
Proof.
  apply set_eq. intros x.
  rewrite !elem_of_difference, elem_of_union, elem_of_singleton. tauto.
Qed.

Lemma classes_remove_remove (cl : gset string) c : (cl ∖ {[c]}) ∖ {[c]} = cl ∖ {[c]}.
Proof. apply set_eq. intros x. rewrite !elem_of_difference. tauto. Qed.

Lemma classes_remove_absent (cl : gset string) c : c ∉ cl → cl ∖ {[c]} = cl.
Proof.
  intros Hc. apply set_eq. intros x.
  rewrite elem_of_difference, elem_of_singleton.
  split; [tauto|]. intros Hx. split; [done|]. by intros ->.
Qed.

Lemma containsClass_add c e : containsClass c (addClass c e) = bool_decide (is_Some e).
Proof.
  destruct e as [cl|]; simpl; [|done].
  rewrite bool_decide_eq_true_2 by (apply elem_of_union; right; by apply elem_of_singleton).
  reflexivity.
Qed.

Lemma containsClass_remove c e : containsClass c (removeClass c e) = false.
Proof.
  destruct e as [cl|]; simpl; [|done].
  apply bool_decide_eq_false_2. intros [_ Hnot]%elem_of_difference.
  apply Hnot. by apply elem_of_singleton.
Qed.

Lemma removeClass_absent c e : containsClass c e = false → removeClass c e = e.
Proof.
  destruct e as [cl|]; simpl; [|done].
  intros Hc%bool_decide_eq_false. by rewrite classes_remove_absent.
Qed.

Lemma removeClass_addClass c e : removeClass c (addClass c e) = removeClass c e.
Proof. destruct e as [cl|]; simpl; [|done]. by rewrite classes_add_remove. Qed.

Lemma removeClass_removeClass c e : removeClass c (removeClass c e) = removeClass c e.
Proof. destruct e as [cl|]; simpl; [|done]. by rewrite classes_remove_remove. Qed.

(** ** Mobile menu *)

Lemma closeMenu_closeMenu d : closeMenu (closeMenu d) = closeMenu d.
Proof.
  unfold closeMenu, with_body, with_menu. simpl.
  by rewrite !removeClass_removeClass, classes_remove_remove.
Qed.

Lemma closeMenu_openMenu d : closeMenu (openMenu d) = closeMenu d.
Proof.
  unfold closeMenu, openMenu, with_body, with_menu. simpl.
  by rewrite !removeClass_addClass, classes_add_remove.
Qed.

Lemma closeMenu_closed d :
  containsClass "open" (sidebar d) = false →
  containsClass "active" (menuBtn d) = false →
  containsClass "active" (overlay d) = false →
  "menu-open" ∉ body d →
  closeMenu d = d.
Proof.
  intros Hs Hb Ho Hbody. unfold closeMenu, with_body, with_menu. simpl.
  rewrite !removeClass_absent, classes_remove_absent by done. by destruct d.
Qed.

(** X1: closing is idempotent, and closing after opening gives the same
    page as closing alone: whatever was open before, after [closeMenu] the
    sidebar, the button, the overlay and the body carry none of the four
    markers. *)
Theorem X1_closeMenu_idempotent d :
  closeMenu (closeMenu d) = closeMenu d
  ∧ closeMenu (openMenu d) = closeMenu d
  ∧ containsClass "open" (sidebar (closeMenu d)) = false
  ∧ containsClass "active" (menuBtn (closeMenu d)) = false
  ∧ containsClass "active" (overlay (closeMenu d)) = false
  ∧ "menu-open" ∉ body (closeMenu d).
Proof.
  split_and!.
  - apply closeMenu_closeMenu.
  - apply closeMenu_openMenu.
  - apply containsClass_remove.
  - apply containsClass_remove.
  - apply containsClass_remove.
  - simpl. intros [_ Hnot]%elem_of_difference. apply Hnot. by apply elem_of_singleton.
Qed.

Ltac split_if :=
  match goal with |- context [if ?b then _ else _] => destruct b eqn:? end.

Section MenuAndOverlay.

Variable lunr : list Doc → option Index.
Variable BASE_URL : option string.

Lemma sameShell_refl d : sameShell d d.
Proof. by unfold sameShell. Qed.

Lemma performMobileSearch_shell st :
  sameShell (document (snd (performMobileSearch BASE_URL st))) (document st).
Proof.
  unfold performMobileSearch, showResults, assignResults, sameShell.
  repeat case_match; simpl; tauto.
Qed.

(** What one event can do to the menu and overlay class lists: nothing, or
    one of the four open and close routines, or both close routines. *)
Lemma dispatch_shell ev st st' :
  dispatch lunr BASE_URL ev st = Some st' →
  sameShell (document st') (document st)
  ∨ (menuPresent (document st) = true
     ∧ sameShell (document st') (openMenu (document st)))
  ∨ sameShell (document st') (closeMenu (document st))
  ∨ (is_Some (searchOverlay (document st))
     ∧ sameShell (document st') (openSearch (document st)))
  ∨ sameShell (document st') (closeSearch (document st))
  ∨ sameShell (document st') (closeSearch (closeMenu (document st))).
Proof.
  intros H. destruct ev; unfold dispatch in H; cbv beta iota zeta in H.
  - left. unfold clickNavTab in H.
    destruct (tabsPresent (document st)); [|injection H as <-; apply sameShell_refl].
    destruct (tabs (document st) !! i) as [t|]; [|injection H as <-; apply sameShell_refl].
    destruct (switchTab _ _) as [d|] eqn:Hsw; [|discriminate].
    injection H as <-. simpl.
    destruct (switchTab_frame _ _ _ Hsw) as (_ & _ & _ & ? & ? & ? & ? & _ & ? & _).
    by unfold sameShell.
  - injection H as <-. destruct (menuPresent (document st)) eqn:Hm;
      [|left; apply sameShell_refl].
    simpl. unfold toggleMenu. destruct (containsClass "open" (sidebar (document st))).
    + right. right. left. apply sameShell_refl.
    + right. left. split; [done | apply sameShell_refl].
  - injection H as <-. split_if; [|left; apply sameShell_refl].
    right. right. left. apply sameShell_refl.
  - injection H as <-. destruct (menuPresent (document st)); [|left; apply sameShell_refl].
    right. right. left. apply sameShell_refl.
  - injection H as <-. destruct (menuPresent (document st)); [|left; apply sameShell_refl].
    simpl. unfold menuResized. split_if; [|left; apply sameShell_refl].
    right. right. left. apply sameShell_refl.
  - injection H as <-.
    assert ((if menuPresent (document st)
             then on_document (menuKeydown key) st else st)
            = st
            ∨ document (if menuPresent (document st)
                        then on_document (menuKeydown key) st else st)
              = closeMenu (document st)) as [-> | Hclosed].
    { destruct (menuPresent (document st)); [|by left].
      unfold on_document, menuKeydown. simpl.
      destruct (bool_decide (key = "Escape")
                && containsClass "open" (sidebar (document st)));
        [by right | left; by destruct st]. }
    + destruct (searchPresent (document st)); [|left; apply sameShell_refl].
      simpl. unfold searchKeydown. split_if; [|left; apply sameShell_refl].
      do 4 right. left. apply sameShell_refl.
    + destruct (searchPresent (document st)); [|right; right; left; rewrite Hclosed; apply sameShell_refl].
      simpl. rewrite Hclosed. unfold searchKeydown.
      split_if.
      * do 5 right. apply sameShell_refl.
      * right. right. left. apply sameShell_refl.
  - injection H as <-. destruct (searchPresent (document st)) eqn:Hs;
      [|left; apply sameShell_refl].
    do 3 right. left. split; [|apply sameShell_refl].
    unfold searchPresent in Hs. apply andb_true_iff in Hs as [_ Hs].
    by apply bool_decide_eq_true in Hs.
  - injection H as <-. split_if; [|left; apply sameShell_refl].
    do 4 right. left. apply sameShell_refl.
  - injection H as <-. simpl. unfold bottomNavSearchClicked.
    destruct (bottomSearchBtn (document st)); simpl; [|left; apply sameShell_refl].
    destruct (bool_decide (is_Some (searchOverlay (document st)))) eqn:Hs;
      [|left; apply sameShell_refl].
    do 3 right. left. split; [by apply bool_decide_eq_true in Hs | apply sameShell_refl].
  - injection H as <-. left. unfold fetchSettled.
    repeat case_match; by unfold sameShell.
  - injection H as <-. left. by unfold sameShell.
  - injection H as <-. left. split_if; [|apply sameShell_refl].
    apply performMobileSearch_shell.
Qed.

Lemma menuMarkersAgree_sameShell d1 d2 :
  sameShell d1 d2 → menuMarkersAgree d2 → menuMarkersAgree d1.
Proof.
  intros (Hb & Hs & Ho & _ & _). unfold menuMarkersAgree. by rewrite Hb, Hs, Ho.
Qed.

Lemma lockExplained_sameShell d1 d2 :
  sameShell d1 d2 → lockExplained d2 → lockExplained d1.
Proof.
  intros (_ & Hs & _ & Hbody & Hso). unfold lockExplained. by rewrite Hs, Hbody, Hso.
Qed.

Lemma menuMarkersAgree_openMenu d :
  menuPresent d = true → menuMarkersAgree (openMenu d).
Proof.
  intros [Hb%bool_decide_eq_true Hs%bool_decide_eq_true]%andb_true_iff.
  unfold menuMarkersAgree. simpl. rewrite !containsClass_add.
  rewrite !bool_decide_eq_true_2 by done. split; [done|].
  intros Ho. rewrite bool_decide_eq_true_2; [done|].
  destruct (overlay d); [done | by apply is_Some_None in Ho].
Qed.

Lemma menuMarkersAgree_closeMenu d : menuMarkersAgree (closeMenu d).
Proof. unfold menuMarkersAgree. simpl. by rewrite !containsClass_remove. Qed.

Lemma lockExplained_openMenu d : menuPresent d = true → lockExplained (openMenu d).
Proof.
  intros [_ Hs%bool_decide_eq_true]%andb_true_iff _. left. simpl.
  rewrite containsClass_add. by apply bool_decide_eq_true_2.
Qed.

Lemma lockExplained_openSearch d : is_Some (searchOverlay d) → lockExplained (openSearch d).
Proof.
  intros Hs _. right. simpl. rewrite containsClass_add. by apply bool_decide_eq_true_2.
Qed.

Lemma lockExplained_unlocked d : "menu-open" ∉ body d → lockExplained d.
Proof. intros Hnot Hin. by destruct Hnot. Qed.

Lemma menu_open_removed (cl : gset string) : "menu-open" ∉ cl ∖ {["menu-open"]}.
Proof. intros [_ Hnot]%elem_of_difference. apply Hnot. by apply elem_of_singleton. Qed.

Lemma init_shell d st0 : init d = Some st0 → sameShell (document st0) d.
Proof.
  unfold init, setupSidebarTabs, setupMobileSearch.
  destruct (tabsPresent d); simpl.
  - destruct (switchTab (savedTab d) d) as [d'|] eqn:Hsw; simpl; [|discriminate].
    intros [= <-].
    destruct (switchTab_frame _ _ _ Hsw) as (_ & _ & _ & ? & ? & ? & ? & _ & ? & _).
    split_if; by unfold sameShell.
  - intros [= <-]. split_if; by unfold sameShell.
Qed.

Lemma dispatch_menuMarkersAgree ev st st' :
  dispatch lunr BASE_URL ev st = Some st' →
  menuMarkersAgree (document st) → menuMarkersAgree (document st').
Proof.
  intros Hd Hagree.
  destruct (dispatch_shell _ _ _ Hd)
    as [Hs | [[Hm Hs] | [Hs | [[_ Hs] | [Hs | Hs]]]]];
    apply (menuMarkersAgree_sameShell _ _ Hs).
  - done.
  - by apply menuMarkersAgree_openMenu.
  - apply menuMarkersAgree_closeMenu.
  - exact Hagree.
  - exact Hagree.
  - exact (menuMarkersAgree_closeMenu (document st)).
Qed.

Lemma dispatch_lockExplained ev st st' :
  dispatch lunr BASE_URL ev st = Some st' →
  lockExplained (document st) → lockExplained (document st').
Proof.
  intros Hd Hlock.
  destruct (dispatch_shell _ _ _ Hd)
    as [Hs | [[Hm Hs] | [Hs | [[Hso Hs] | [Hs | Hs]]]]];
    apply (lockExplained_sameShell _ _ Hs).
  - done.
  - by apply lockExplained_openMenu.
  - apply lockExplained_unlocked, menu_open_removed.
  - by apply lockExplained_openSearch.
  - apply lockExplained_unlocked, menu_open_removed.
  - apply lockExplained_unlocked, menu_open_removed.
Qed.

(** X2: if the page is served with the button and overlay markers in step
    with the sidebar marker (for one, with none of them set), they stay in
    step whatever happens: in every state reached from [init] the menu
    button is active exactly when the sidebar is open, and so is the
    overlay when the page has one. *)
Theorem X2_menu_markers_in_step d st0 evs st :
  menuMarkersAgree d →
  init d = Some st0 →
  run lunr BASE_URL evs st0 = Some st →
  containsClass "active" (menuBtn (document st))
  = containsClass "open" (sidebar (document st))
  ∧ (is_Some (overlay (document st)) →
     containsClass "active" (overlay (document st))
     = containsClass "open" (sidebar (document st))).
Proof.
  intros Hagree Hinit.
  assert (menuMarkersAgree (document st0)) as H0
    by (eapply menuMarkersAgree_sameShell; [by apply init_shell | done]).
  clear Hinit Hagree. revert st0 H0.
  induction evs as [|ev evs IH]; intros st0 H0; simpl.
  - by intros [= <-].
  - destruct (dispatch lunr BASE_URL ev st0) as [st1|] eqn:Hd; simpl; [|discriminate].
    apply IH. by eapply dispatch_menuMarkersAgree.
Qed.

(** X3: if the page is served without [menu-open] on the body, then in
    every state reached from [init] a body marked [menu-open] has the
    sidebar open or the search overlay active: the marker never outlives
    both. *)
Theorem X3_body_marker_never_stale d st0 evs st :
  "menu-open" ∉ body d →
  init d = Some st0 →
  run lunr BASE_URL evs st0 = Some st →
  "menu-open" ∈ body (document st) →
  containsClass "open" (sidebar (document st)) = true
  ∨ containsClass "active" (searchOverlay (document st)) = true.
Proof.
  intros Hbody Hinit.
  assert (lockExplained (document st0)) as H0.
  { eapply lockExplained_sameShell; [by apply init_shell|].
    by apply lockExplained_unlocked. }
  clear Hinit Hbody. revert st0 H0.
  induction evs as [|ev evs IH]; intros st0 H0; simpl.
  - by intros [= <-].
  - destruct (dispatch lunr BASE_URL ev st0) as [st1|] eqn:Hd; simpl; [|discriminate].
    apply IH. by eapply dispatch_lockExplained.
Qed.

(** X4: with the menu closed and no marker set, a click on the menu button
    sets all four markers (the overlay's when there is an overlay), and a
    second click gives back exactly the state before the first. *)
Theorem X4_menu_button_twice st :
  menuPresent (document st) = true →
  containsClass "open" (sidebar (document st)) = false →
  containsClass "active" (menuBtn (document st)) = false →
  containsClass "active" (overlay (document st)) = false →
  "menu-open" ∉ body (document st) →
  ∃ st1,
    dispatch lunr BASE_URL ClickMenuBtn st = Some st1
    ∧ containsClass "open" (sidebar (document st1)) = true
    ∧ containsClass "active" (menuBtn (document st1)) = true
    ∧ (is_Some (overlay (document st)) →
       containsClass "active" (overlay (document st1)) = true)
    ∧ "menu-open" ∈ body (document st1)
    ∧ dispatch lunr BASE_URL ClickMenuBtn st1 = Some st.
Proof.
  intros Hm Hs Hb Ho Hbody.
  pose proof Hm as [Hbtn%bool_decide_eq_true Hside%bool_decide_eq_true]%andb_true_iff.
  exists (on_document openMenu st).
  assert (containsClass "open" (sidebar (openMenu (document st))) = true) as Hopen.
  { simpl. rewrite containsClass_add. by apply bool_decide_eq_true_2. }
  split_and!.
  - unfold dispatch, toggleMenu. rewrite Hm. unfold on_document at 1. by rewrite Hs.
  - exact Hopen.
  - simpl. rewrite containsClass_add. by apply bool_decide_eq_true_2.
  - intros Hov. simpl. rewrite containsClass_add. by apply bool_decide_eq_true_2.
  - simpl. apply elem_of_union. right. by apply elem_of_singleton.
  - unfold dispatch.
    replace (menuPresent (document (on_document openMenu st))) with true.
    2:{ symmetry. unfold menuPresent. simpl. unfold addClass.
        rewrite !bool_decide_eq_true_2; [done | by apply fmap_is_Some..]. }
    unfold on_document at 1, toggleMenu. simpl document. rewrite Hopen.
    rewrite closeMenu_openMenu, closeMenu_closed by done. by destruct st.
Qed.

(** X5: after an Escape key press the sidebar is not open (on a page with
    the menu) and the search overlay is not active (on a page with the
    search); if either was open, the body has lost [menu-open], and a search
    overlay that was active has its input and results emptied.  Any other
    key leaves the state as it is. *)
Theorem X5_escape_closes_menu_and_search st :
  ∃ st',
    dispatch lunr BASE_URL (Keydown "Escape") st = Some st'
    ∧ (menuPresent (document st) = true →
       containsClass "open" (sidebar (document st')) = false)
    ∧ (searchPresent (document st) = true →
       containsClass "active" (searchOverlay (document st')) = false)
    ∧ (menuPresent (document st) && containsClass "open" (sidebar (document st))
       || searchPresent (document st)
          && containsClass "active" (searchOverlay (document st)) = true →
       "menu-open" ∉ body (document st'))
    ∧ (searchPresent (document st)
       && containsClass "active" (searchOverlay (document st)) = true →
       searchInput (document st') = (λ _, "") <$> searchInput (document st)
       ∧ searchResults (document st') = (λ _, "") <$> searchResults (document st))
    ∧ ∀ key, key ≠ "Escape" → dispatch lunr BASE_URL (Keydown key) st = Some st.
Proof.
  eexists. split; [reflexivity|].
  unfold menuKeydown, searchKeydown.
  destruct (menuPresent (document st)) eqn:Hm;
    destruct (containsClass "open" (sidebar (document st))) eqn:Hs;
    destruct (searchPresent (document st)) eqn:Hp;
    destruct (containsClass "active" (searchOverlay (document st))) eqn:Ha;
    simpl; rewrite ?Hs, ?Ha; simpl; rewrite ?Ha; simpl;
    (split_and!;
     [ intros; first [done | apply containsClass_remove]
     | intros; first [done | apply containsClass_remove]
     | intros; first [done | apply menu_open_removed]
     | intros; first [done | by split]
     | intros key Hkey; unfold dispatch, menuKeydown, searchKeydown;
       rewrite Hm, Hp; unfold on_document; simpl;
       rewrite ?(bool_decide_eq_false_2 _ Hkey); simpl; by destruct st ]).
Qed.

(** X6: the resize callback closes the menu only beyond the breakpoint: at
    a width of 768 or less it changes nothing, open menu or not; above 768
    it leaves the sidebar closed, and changes nothing if it was closed
    already. *)
Theorem X6_resize_breakpoint w st :
  menuPresent (document st) = true →
  ((w ≤ 768)%Z → dispatch lunr BASE_URL (ResizeTimer w) st = Some st)
  ∧ ((768 < w)%Z →
     ∃ st', dispatch lunr BASE_URL (ResizeTimer w) st = Some st'
            ∧ containsClass "open" (sidebar (document st')) = false
            ∧ (containsClass "open" (sidebar (document st)) = true →
               document st' = closeMenu (document st))
            ∧ (containsClass "open" (sidebar (document st)) = false → st' = st)).
Proof.
  intros Hm. unfold dispatch, menuResized. rewrite Hm. split.
  - intros Hw. apply Z.ltb_ge in Hw. unfold on_document. rewrite Hw. simpl.
    by destruct st.
  - intros Hw. apply Z.ltb_lt in Hw. eexists. split; [reflexivity|].
    unfold on_document. rewrite Hw. simpl.
    destruct (containsClass "open" (sidebar (document st))) eqn:Hs; simpl.
    + split_and!; [apply containsClass_remove | done | done].
    + split_and!; [done | done | intros _; by destruct st].
Qed.

End MenuAndOverlay.

(** ** Sidebar tabs *)

Lemma tab_remove_remove t : tab_remove_active (tab_remove_active t) = tab_remove_active t.
Proof. unfold tab_remove_active. simpl. by rewrite classes_remove_remove. Qed.

Lemma tab_remove_add t : tab_remove_active (tab_add_active t) = tab_remove_active t.
Proof. unfold tab_remove_active, tab_add_active. simpl. by rewrite classes_add_remove. Qed.

Lemma tabs_remove_remove (ts : list TabButton) :
  tab_remove_active <$> (tab_remove_active <$> ts) = tab_remove_active <$> ts.
Proof.
  rewrite <- list_fmap_compose. apply list_fmap_ext. intros _ t _. apply tab_remove_remove.
Qed.

(** [switchTab] field by field. *)
Lemma switchTab_fields tabName d d' :
  switchTab tabName d = Some d' →
  cssPlain tabName = true
  ∧ tabs d'
    = match queryNavTab tabName (tab_remove_active <$> tabs d) with
      | Some (i, activeTab) =>
          <[i := tab_add_active activeTab]> (tab_remove_active <$> tabs d)
      | None => tab_remove_active <$> tabs d
      end
  ∧ treeSection d'
    = (λ _, if bool_decide (tabName = "tree") then "block" else "none") <$> treeSection d
  ∧ recentSection d'
    = (λ _, if bool_decide (tabName = "recent") then "block" else "none")
        <$> recentSection d.
Proof.
  unfold switchTab. destruct (cssPlain tabName); [|discriminate].
  intros [= <-]. simpl. destruct (queryNavTab _ _) as [[i t]|]; by simpl.
Qed.

(** After [switchTab] the buttons are the old ones up to the [active]
    class. *)
Lemma switchTab_tabs_modulo_active tabName d d' :
  switchTab tabName d = Some d' →
  tab_remove_active <$> tabs d' = tab_remove_active <$> tabs d.
Proof.
  intros (_ & -> & _)%switchTab_fields.
  destruct (queryNavTab _ _) as [[i a]|] eqn:Hfind; [|apply tabs_remove_remove].
  apply list_find_Some in Hfind as (Hi & _ & _).
  rewrite list_fmap_insert, tab_remove_add, tabs_remove_remove.
  apply list_insert_id.
  apply list_lookup_fmap_Some in Hi as (t0 & -> & Hi).
  by rewrite tab_remove_remove, list_lookup_fmap, Hi.
Qed.

Lemma Document_eq d1 d2 :
  tabs d1 = tabs d2 → treeSection d1 = treeSection d2 →
  recentSection d1 = recentSection d2 → menuBtn d1 = menuBtn d2 →
  sidebar d1 = sidebar d2 → overlay d1 = overlay d2 → body d1 = body d2 →
  searchBtn d1 = searchBtn d2 → searchOverlay d1 = searchOverlay d2 →
  searchClose d1 = searchClose d2 → searchInput d1 = searchInput d2 →
  searchResults d1 = searchResults d2 → bottomSearchBtn d1 = bottomSearchBtn d2 →
  localStorage d1 = localStorage d2 → d1 = d2.
Proof. destruct d1, d2. simpl. intros. by subst. Qed.

(** X7: switching to the tab that is already shown changes nothing:
    [switchTab] applied to its own result returns that result. *)
Theorem X7_switchTab_idempotent tabName d d' :
  switchTab tabName d = Some d' → switchTab tabName d' = Some d'.
Proof.
  intros H.
  pose proof (switchTab_fields _ _ _ H) as (Hplain & Htabs & Htree & Hrecent).
  pose proof (switchTab_tabs_modulo_active _ _ _ H) as Hmod.
  destruct (switchTab tabName d') as [d''|] eqn:H'.
  2:{ by rewrite (switchTab_plain _ _ Hplain) in H'. }
  pose proof (switchTab_fields _ _ _ H') as (_ & Htabs' & Htree' & Hrecent').
  destruct (switchTab_frame _ _ _ H')
    as (_ & _ & _ & ? & ? & ? & ? & ? & ? & ? & ? & ? & ? & ?).
  f_equal. apply Document_eq; try done.
  - by rewrite Htabs', Hmod, <- Htabs.
  - rewrite Htree', Htree. by destruct (treeSection d).
  - rewrite Hrecent', Hrecent. by destruct (recentSection d).
Qed.

Section TabsOnThePage.

Variable lunr : list Doc → option Index.
Variable BASE_URL : option string.

(** Only a tab click on a page that passed the tab guard touches the tab
    buttons, the two sections or the storage. *)
Lemma dispatch_tab_part ev st st' :
  dispatch lunr BASE_URL ev st = Some st' →
  (∀ i, ev ≠ ClickNavTab i) ∨ tabsPresent (document st) = false →
  tabs (document st') = tabs (document st)
  ∧ treeSection (document st') = treeSection (document st)
  ∧ recentSection (document st') = recentSection (document st)
  ∧ localStorage (document st') = localStorage (document st)
  ∧ setItemLog st' = setItemLog st.
Proof.
  intros H Hev.
  destruct ev; unfold dispatch in H; cbv beta iota zeta in H;
    try (injection H as <-; unfold menuResized, menuKeydown, searchKeydown,
           toggleMenu, bottomNavSearchClicked, fetchSettled;
         repeat (simpl; case_match); by simpl).
  - destruct Hev as [Hev | Hg]; [by destruct (Hev i)|].
    unfold clickNavTab in H. rewrite Hg in H. by injection H as <-.
  - injection H as <-. split_if; [|done].
    pose proof (performMobileSearch_frame BASE_URL st) as F. cbv zeta in F. tauto.
Qed.




Lemma setupMobileSearch_document st : document (setupMobileSearch st) = document st.
Proof. unfold setupMobileSearch. by destruct (_ && _). Qed.

Lemma tabsPresent_sections d :
  tabsPresent d = true → is_Some (treeSection d) ∧ is_Some (recentSection d).
Proof.
  unfold tabsPresent.
  by intros [[_ ?%bool_decide_eq_true]%andb_true_iff ?%bool_decide_eq_true]%andb_true_iff.
Qed.


(** X9: a stored preference that is neither [tree] nor [recent], not
    empty, and free of the characters that end or escape the quoted
    selector (quote, backslash, NUL, LF, FF, CR) hides both sections on
    load; if no tab button carries that name, no tab button is active
    either. *)
Theorem X9_unknown_saved_tab d s :
  tabsPresent d = true →
  localStorage d !! STORAGE_KEY = Some s →
  s ≠ "" → cssPlain s = true → s ≠ "tree" → s ≠ "recent" →
  ∃ st,
    init d = Some st
    ∧ treeSection (document st) = Some "none"
    ∧ recentSection (document st) = Some "none"
    ∧ ((∀ t, t ∈ tabs d → tab_dataset t ≠ Some s) →
       ∀ t, t ∈ tabs (document st) → "active" ∉ tab_classList t).
Proof.
  intros Hg Hstore Hne Hplain Htree Hrecent.
  destruct (tabsPresent_sections _ Hg) as [[a Ha] [b Hb]].
  assert (savedTab d = s) as Hsaved.
  { unfold savedTab. rewrite Hstore.
    destruct (falsy s) eqn:E; [by apply falsy_true_iff in E | done]. }
  unfold init, setupSidebarTabs. rewrite Hg, Hsaved, (switchTab_plain _ _ Hplain).
  simpl. eexists. split; [reflexivity|].
  rewrite setupMobileSearch_document. simpl document.
  rewrite (bool_decide_eq_false_2 _ Htree), (bool_decide_eq_false_2 _ Hrecent).
  destruct (queryNavTab s (tab_remove_active <$> tabs d)) as [[i t0]|] eqn:Hfind; simpl;
    rewrite Ha, Hb; (split_and!; [done | done |]).
  - intros Hnone. apply list_find_Some in Hfind as (Hi & Hname & _).
    apply list_lookup_fmap_Some in Hi as (t1 & -> & Hi).
    destruct (Hnone t1); [by eapply list_elem_of_lookup_2 | done].
  - intros _ t [t1 [-> _]]%list_elem_of_fmap. apply tab_remove_active_inactive.
Qed.

(** X10: an empty string stored under the preference key counts as no
    preference: the page loads with the same tab buttons and sections as it
    does with the key removed. *)
Theorem X10_empty_saved_tab d :
  localStorage d !! STORAGE_KEY = Some "" →
  ∃ st st',
    init d = Some st
    ∧ init (with_localStorage (delete STORAGE_KEY) d) = Some st'
    ∧ tabs (document st) = tabs (document st')
    ∧ treeSection (document st) = treeSection (document st')
    ∧ recentSection (document st) = recentSection (document st').
Proof.
  intros Hstore. unfold init, setupSidebarTabs, savedTab.
  change (tabsPresent (with_localStorage (delete STORAGE_KEY) d)) with (tabsPresent d).
  simpl localStorage. rewrite Hstore, lookup_delete_eq. simpl falsy. cbv iota.
  destruct (tabsPresent d).
  - rewrite !switchTab_plain by done. simpl.
    eexists _, _. split; [reflexivity|]. split; [reflexivity|].
    rewrite !setupMobileSearch_document. simpl document.
    destruct (queryNavTab "tree" (tab_remove_active <$> tabs d)) as [[? ?]|]; by simpl.
  - eexists _, _. split; [reflexivity|]. split; [reflexivity|].
    by rewrite !setupMobileSearch_document.
Qed.

Lemma run_guard_failed evs st0 :
  tabsPresent (document st0) = false →
  ∃ st,
    run lunr BASE_URL evs st0 = Some st
    ∧ tabs (document st) = tabs (document st0)
    ∧ treeSection (document st) = treeSection (document st0)
    ∧ recentSection (document st) = recentSection (document st0)
    ∧ localStorage (document st) = localStorage (document st0)
    ∧ setItemLog st = setItemLog st0.
Proof.
  revert st0. induction evs as [|ev evs IH]; intros st0 Hg0.
  - exists st0. by split_and!.
  - assert (∃ st1, dispatch lunr BASE_URL ev st0 = Some st1) as [st1 Hd].
    { destruct ev; try (eexists; reflexivity).
      unfold dispatch, clickNavTab. rewrite Hg0. by eexists. }
    destruct (dispatch_tab_part _ _ _ Hd (or_intror Hg0)) as (Ht & Ha & Hb & Hl & Hlog).
    destruct (IH st1) as (st & Hrun & ? & ? & ? & ? & ?).
    { unfold tabsPresent. rewrite Ht, Ha, Hb. exact Hg0. }
    exists st. split; [simpl; by rewrite Hd|]. split_and!; congruence.
Qed.

(** X11: a page without tab buttons, or without one of the two sections,
    is left alone by the tab controller for good: whatever was stored and
    whatever follows, every event is handled, the tab buttons, the sections
    and the storage stay as served, and nothing is ever written. *)
Theorem X11_tab_guard_failed d evs :
  tabsPresent d = false →
  ∃ st0 st,
    init d = Some st0
    ∧ run lunr BASE_URL evs st0 = Some st
    ∧ tabs (document st) = tabs d
    ∧ treeSection (document st) = treeSection d
    ∧ recentSection (document st) = recentSection d
    ∧ localStorage (document st) = localStorage d
    ∧ setItemLog st = [].
Proof.
  intros Hg. unfold init, setupSidebarTabs. rewrite Hg. simpl.
  set (st0 := setupMobileSearch _).
  assert (document st0 = d) as Hdoc by (subst st0; apply setupMobileSearch_document).
  assert (setItemLog st0 = []) as Hlog0.
  { subst st0. unfold setupMobileSearch. by split_if. }
  destruct (run_guard_failed evs st0) as (st & Hrun & Ht & Ha & Hb & Hl & Hlog).
  { by rewrite Hdoc. }
  exists st0, st. rewrite Hdoc in *. by split_and!; [| |congruence..].
Qed.

(** X23: only tab clicks change the tabs.  A sequence of events without a
    click on a tab button leaves the tab buttons, the two sections, the
    storage and the list of storage writes exactly as they were. *)
Theorem X23_only_tab_clicks_change_tabs evs st st' :
  (∀ i, ClickNavTab i ∉ evs) →
  run lunr BASE_URL evs st = Some st' →
  tabs (document st') = tabs (document st)
  ∧ treeSection (document st') = treeSection (document st)
  ∧ recentSection (document st') = recentSection (document st)
  ∧ localStorage (document st') = localStorage (document st)
  ∧ setItemLog st' = setItemLog st.
Proof.
  revert st. induction evs as [|ev evs IH]; intros st Hno; simpl.
  - by intros [= <-].
  - destruct (dispatch lunr BASE_URL ev st) as [st1|] eqn:Hd; simpl; [|discriminate].
    intros Hrun.
    destruct (dispatch_tab_part _ _ _ Hd) as (Ht & Ha & Hb & Hl & Hlog).
    { left. intros i ->. apply (Hno i). by left. }
    destruct (IH st1) as (? & ? & ? & ? & ?); [|done|].
    { intros i Hin. apply (Hno i). by right. }
    split_and!; congruence.
Qed.

End TabsOnThePage.

(** ** Strings *)

Lemma append_String c s t : String c s +:+ t = String c (s +:+ t).
Proof. reflexivity. Qed.

Lemma trimStart_split s :
  ∃ pre, s = pre +:+ trimStart s ∧ whitespaceOnly pre = true.
Proof.
  induction s as [|c s (pre & Hs & Hpre)]; [by exists ""|].
  simpl. destruct (isWhiteSpace c) eqn:E.
  - exists (String c pre). rewrite append_String. split; [by f_equal|].
    simpl. by rewrite E.
  - by exists "".
Qed.

Lemma trimEnd_split s :
  ∃ post, s = trimEnd s +:+ post ∧ whitespaceOnly post = true.
Proof.
  induction s as [|c s (post & Hs & Hpost)]; [by exists ""|].
  simpl. destruct (trimEnd s) as [|c' t] eqn:Ht.
  - destruct (isWhiteSpace c) eqn:E.
    + exists (String c post). split; [by rewrite Hs at 1|]. simpl. by rewrite E.
    + exists post. rewrite append_String. split; [by rewrite Hs at 1 | done].
  - exists post. rewrite append_String. split; [by rewrite Hs at 1 | done].
Qed.

Lemma trimStart_first s :
  match trimStart s with String c _ => isWhiteSpace c = false | EmptyString => True end.
Proof.
  induction s as [|c s IH]; simpl; [done|].
  destruct (isWhiteSpace c) eqn:E; [exact IH | exact E].
Qed.

Lemma trimEnd_first s :
  match s with String c _ => isWhiteSpace c = false | EmptyString => True end →
  match trimEnd s with String c _ => isWhiteSpace c = false | EmptyString => True end.
Proof.
  destruct s as [|c s]; simpl; [done|]. intros E.
  destruct (trimEnd s); [by rewrite E | done].
Qed.

Lemma trimEnd_last s t c :
  trimEnd s = t +:+ String c "" → isWhiteSpace c = false.
Proof.
  revert t. induction s as [|a s IH]; intros t; simpl.
  - destruct t; discriminate.
  - destruct (trimEnd s) as [|c' u] eqn:Hu.
    + destruct (isWhiteSpace a) eqn:E; [destruct t; discriminate|].
      destruct t as [|b t]; [by intros [= <-]|].
      rewrite append_String. intros [= _ H]. destruct t; discriminate.
    + destruct t as [|b t]; [discriminate|].
      rewrite append_String. intros [= _ H]. by apply (IH t).
Qed.

Lemma trimStart_fixed s :
  match s with String c _ => isWhiteSpace c = false | EmptyString => True end →
  trimStart s = s.
Proof. destruct s as [|c s]; simpl; [done|]. by intros ->. Qed.

Lemma trimEnd_trimEnd s : trimEnd (trimEnd s) = trimEnd s.
Proof.
  induction s as [|c s IH]; simpl; [done|].
  destruct (trimEnd s) as [|c' t] eqn:Ht.
  - destruct (isWhiteSpace c) eqn:E; simpl; [done | by rewrite E].
  - simpl. simpl in IH. by rewrite IH.
Qed.

(** X12: [trim] removes a run of white space at each end and nothing else:
    the input is the result with white space only before and after it, and
    the result neither starts nor ends with a white-space character.
    Trimming a second time changes nothing. *)
Theorem X12_trim_strips_both_ends s :
  (∃ pre post,
     s = pre +:+ trim s +:+ post
     ∧ whitespaceOnly pre = true ∧ whitespaceOnly post = true)
  ∧ match trim s with String c _ => isWhiteSpace c = false | EmptyString => True end
  ∧ (∀ t c, trim s = t +:+ String c "" → isWhiteSpace c = false)
  ∧ trim (trim s) = trim s.
Proof.
  unfold trim. split_and!.
  - destruct (trimStart_split s) as (pre & Hs & Hpre).
    destruct (trimEnd_split (trimStart s)) as (post & Ht & Hpost).
    exists pre, post. split; [|done]. rewrite <- Ht. exact Hs.
  - apply trimEnd_first, trimStart_first.
  - intros t c. apply trimEnd_last.
  - rewrite trimStart_fixed by apply trimEnd_first, trimStart_first.
    apply trimEnd_trimEnd.
Qed.

Lemma occurs_app c s t : occurs c (s +:+ t) = occurs c s || occurs c t.
Proof.
  induction s as [|c' s IH]; [done|]. rewrite append_String. simpl.
  by rewrite IH, orb_assoc.
Qed.

(** What [escapeChar] gives: the character itself, unless it is one of the
    four that have an entity. *)
Lemma escapeChar_cases c :
  (escapeChar c = String c "" ∧ c ≠ "&"%char ∧ c ≠ "<"%char ∧ c ≠ ">"%char
   ∧ c ≠ "160"%char)
  ∨ (c = "&"%char ∧ escapeChar c = "&amp;")
  ∨ (c = "<"%char ∧ escapeChar c = "&lt;")
  ∨ (c = ">"%char ∧ escapeChar c = "&gt;")
  ∨ (c = "160"%char ∧ escapeChar c = "&nbsp;").
Proof.
  destruct c as [[] [] [] [] [] [] [] []];
    first [ left; split_and!; [reflexivity | discriminate..]
          | right; left; split; reflexivity
          | right; right; left; split; reflexivity
          | right; right; right; left; split; reflexivity
          | right; right; right; right; split; reflexivity ].
Qed.

Lemma escapeHtml_String c s : escapeHtml (String c s) = escapeChar c +:+ escapeHtml s.
Proof. reflexivity. Qed.

(** X13: the escaped text has no [<] and no [>], whatever the input; and a
    text without [&], [<], [>] and no-break space is returned as it is. *)
Theorem X13_escapeHtml_no_angle_brackets text :
  occurs "<" (escapeHtml text) = false
  ∧ occurs ">" (escapeHtml text) = false
  ∧ (occurs "&" text = false → occurs "<" text = false → occurs ">" text = false →
     occurs "160" text = false → escapeHtml text = text).
Proof.
  induction text as [|c text (IHlt & IHgt & IHid)]; [done|].
  rewrite escapeHtml_String, !occurs_app, IHlt, IHgt, !orb_false_r.
  destruct (escapeChar_cases c)
    as [(-> & Ha & Hl & Hg & Hn) | [[-> ->] | [[-> ->] | [[-> ->] | [-> ->]]]]];
    (split_and!; [..| try (simpl; discriminate)]); try reflexivity.
  - cbn [occurs]. rewrite orb_false_r. apply Ascii.eqb_neq. congruence.
  - cbn [occurs]. rewrite orb_false_r. apply Ascii.eqb_neq. congruence.
  - cbn [occurs].
    intros [_ H1]%orb_false_iff [_ H2]%orb_false_iff [_ H3]%orb_false_iff
      [_ H4]%orb_false_iff.
    rewrite append_String. f_equal. by apply IHid.
Qed.

(** X14: escaping loses nothing: two texts with the same escaped form are
    the same text. *)
Theorem X14_escapeHtml_injective a b : escapeHtml a = escapeHtml b → a = b.
Proof.
  revert b. induction a as [|c a IH]; intros [|c' b].
  - done.
  - rewrite escapeHtml_String. simpl.
    destruct (escapeChar_cases c') as [(-> & _) | [[_ ->] | [[_ ->] | [[_ ->] | [_ ->]]]]];
      discriminate.
  - rewrite escapeHtml_String. simpl.
    destruct (escapeChar_cases c) as [(-> & _) | [[_ ->] | [[_ ->] | [[_ ->] | [_ ->]]]]];
      discriminate.
  - rewrite !escapeHtml_String.
    destruct (escapeChar_cases c)
      as [(-> & Ha & _) | [[-> ->] | [[-> ->] | [[-> ->] | [-> ->]]]]];
      destruct (escapeChar_cases c')
        as [(-> & Ha' & _) | [[-> ->] | [[-> ->] | [[-> ->] | [-> ->]]]]];
      rewrite ?append_String; simpl; intros H; simplify_eq; try done;
      f_equal; by apply IH.
Qed.

(** ** Mobile search *)

Section SearchOnThePage.

Variable lunr : list Doc → option Index.
Variable BASE_URL : option string.

Lemma assignResults_calls html st :
  searchCalls (snd (assignResults html st)) = searchCalls st.
Proof. unfold assignResults. by destruct (searchResults (document st)). Qed.

Lemma showResults_calls results st :
  searchCalls (snd (showResults BASE_URL results st)) = searchCalls st.
Proof.
  unfold showResults. destruct (Nat.eqb _ _); [apply assignResults_calls|].
  destruct (searchMetadata st); [apply assignResults_calls | done].
Qed.

Lemma runSearch_calls idx q :
  snd (runSearch idx q) = [q] ∨ snd (runSearch idx q) = [q; q +:+ "*"].
Proof.
  unfold runSearch. destruct (idx q) as [rs|]; [|by left].
  destruct (Nat.eqb _ _); [|by left].
  destruct (idx (q +:+ "*")); by right.
Qed.

(** X15: one run of the search handler calls the index at most twice, and
    only with the trimmed input or the trimmed input followed by a star; it
    calls it only when an index is loaded and the trimmed input is not
    empty, so the index is never asked an empty or blank query. *)
Theorem X15_index_never_asked_blank st :
  ∃ new,
    searchCalls (snd (performMobileSearch BASE_URL st)) = searchCalls st ++ new
    ∧ length new ≤ 2
    ∧ ∀ q, q ∈ new →
        ∃ value, searchInput (document st) = Some value
                 ∧ trim value ≠ ""
                 ∧ is_Some (searchIndex st)
                 ∧ (q = trim value ∨ q = trim value +:+ "*").
Proof.
  unfold performMobileSearch.
  destruct (searchInput (document st)) as [value|];
    [|exists []; rewrite app_nil_r; split_and!; [done | simpl; lia | by intros q ?%elem_of_nil]].
  destruct (falsy (trim value)) eqn:Hq;
    [exists []; rewrite app_nil_r, assignResults_calls;
     split_and!; [done | simpl; lia | by intros q ?%elem_of_nil]|].
  destruct (searchIndex st) as [idx|];
    [|exists []; rewrite app_nil_r, assignResults_calls;
      split_and!; [done | simpl; lia | by intros q ?%elem_of_nil]].
  assert (trim value ≠ "") as Hne by (intros E; by rewrite E in Hq).
  destruct (runSearch idx (trim value)) as [results calls] eqn:Hrun.
  exists calls. rewrite showResults_calls. split; [done|].
  pose proof (runSearch_calls idx (trim value)) as Hcalls. rewrite Hrun in Hcalls.
  simpl in Hcalls.
  destruct Hcalls as [-> | ->]; (split; [simpl; lia|]); intros q Hin;
    exists value; (split_and!; [done | done | by eexists |]).
  - apply list_elem_of_singleton in Hin. by left.
  - apply elem_of_cons in Hin as [-> | Hin]; [by left|].
    apply list_elem_of_singleton in Hin. by right.
Qed.

(** X16: white space around the typed text never matters: two inputs with
    the same trimmed form end the handler the same way, with the same
    markup in the results and the same calls to the index. *)
Theorem X16_surrounding_space_ignored st v1 v2 :
  trim v1 = trim v2 →
  fst (performMobileSearch BASE_URL (typed v1 st))
  = fst (performMobileSearch BASE_URL (typed v2 st))
  ∧ searchResults (document (snd (performMobileSearch BASE_URL (typed v1 st))))
    = searchResults (document (snd (performMobileSearch BASE_URL (typed v2 st))))
  ∧ searchCalls (snd (performMobileSearch BASE_URL (typed v1 st)))
    = searchCalls (snd (performMobileSearch BASE_URL (typed v2 st))).
Proof.
  intros Htrim. unfold performMobileSearch, typed. simpl.
  destruct (searchInput (document st)) as [v|]; simpl; [|done].
  rewrite Htrim.
  destruct (if falsy (trim v2) then None else searchIndex st) as [idx|].
  - destruct (runSearch idx (trim v2)) as [results calls].
    unfold showResults, assignResults. simpl.
    destruct (Nat.eqb _ _); [by destruct (searchResults (document st))|].
    destruct (searchMetadata st); [|done].
    by destruct (searchResults (document st)).
  - unfold assignResults. simpl. by destruct (searchResults (document st)).
Qed.

(** X17: closing the overlay does not cancel the debounce timer, but a
    timer that fires afterwards finds the input empty: on a page with the
    input and results elements, after [closeSearch] both are empty and the
    timer callback leaves the state as it is, loaded index or not. *)
Theorem X17_timer_after_close_is_idle st :
  searchPresent (document st) = true →
  searchFieldsPresent (document st) = true →
  searchInput (document (on_document closeSearch st)) = Some ""
  ∧ searchResults (document (on_document closeSearch st)) = Some ""
  ∧ containsClass "active" (searchOverlay (document (on_document closeSearch st))) = false
  ∧ dispatch lunr BASE_URL DebounceTimer (on_document closeSearch st)
    = Some (on_document closeSearch st).
Proof.
  intros Hp [[vi Hi]%bool_decide_eq_true [vr Hr]%bool_decide_eq_true]%andb_true_iff.
  assert (performMobileSearch BASE_URL (on_document closeSearch st)
          = (Normal, on_document closeSearch st)) as Hidle.
  { unfold performMobileSearch, assignResults. simpl. rewrite Hi, Hr. simpl.
    f_equal. unfold on_document. simpl. f_equal.
    apply Document_eq; simpl; try done. by rewrite Hr. }
  split_and!.
  - simpl. by rewrite Hi.
  - simpl. by rewrite Hr.
  - apply containsClass_remove.
  - unfold dispatch.
    replace (searchPresent (document (on_document closeSearch st))
             && searchFieldsPresent (document (on_document closeSearch st))) with true.
    + by rewrite Hidle.
    + symmetry. apply andb_true_iff. split.
      * unfold searchPresent in *. simpl.
        apply andb_true_iff in Hp as [-> Hso%bool_decide_eq_true]. simpl.
        apply bool_decide_eq_true. by apply fmap_is_Some.
      * unfold searchFieldsPresent. simpl. by rewrite Hi, Hr.
Qed.

(** X18: as long as every response has the expected shape and the builder
    accepts its documents, the search handler never throws: in every state
    reached from [init] on a page with the input and results elements it
    ends normally. *)
Theorem X18_search_never_throws d st0 evs st :
  init d = Some st0 →
  run lunr BASE_URL evs st0 = Some st →
  Forall (wellShaped lunr) evs →
  searchFieldsPresent (document st) = true →
  fst (performMobileSearch BASE_URL st) = Normal.
Proof.
  intros Hinit Hrun Hws
    [[vi Hi]%bool_decide_eq_true [vr Hr]%bool_decide_eq_true]%andb_true_iff.
  destruct (run_search_state _ _ _ _ _ _ Hinit Hrun) as (_ & _ & Hboth).
  unfold performMobileSearch, showResults, assignResults. rewrite Hi.
  destruct (Hboth Hws) as [[_ [md Hmd]] | [Hnone _]].
  - destruct (if falsy (trim vi) then None else searchIndex st) as [idx|];
      [|by rewrite Hr].
    destruct (runSearch idx (trim vi)) as [results calls]. simpl.
    rewrite Hmd, Hr. by destruct (Nat.eqb _ _).
  - rewrite Hnone. destruct (falsy (trim vi)); by rewrite Hr.
Qed.

(** X19: with an index but no metadata (the index file had documents and
    no metadata field), a query with hits makes the handler throw at the
    metadata lookup: the search calls have been made and the results
    element keeps what it showed before. *)
Theorem X19_hits_without_metadata_throw st value idx r rs :
  searchInput (document st) = Some value →
  trim value ≠ "" →
  searchIndex st = Some idx →
  searchMetadata st = None →
  fst (runSearch idx (trim value)) = r :: rs →
  performMobileSearch BASE_URL st
  = (ThrowTypeError, log_search (snd (runSearch idx (trim value))) st)
  ∧ searchResults (document (snd (performMobileSearch BASE_URL st)))
    = searchResults (document st).
Proof.
  intros Hi Hq Hidx Hmd Hrun.
  assert (performMobileSearch BASE_URL st
          = (ThrowTypeError, log_search (snd (runSearch idx (trim value))) st)) as H.
  { unfold performMobileSearch. rewrite Hi, Hidx.
    destruct (falsy (trim value)) eqn:E; [by apply falsy_true_iff in E|].
    destruct (runSearch idx (trim value)) as [results calls]. simpl in *. subst results.
    unfold showResults. simpl. by rewrite Hmd. }
  by rewrite H.
Qed.

(** Without an index no event adds a search call. *)
Lemma dispatch_calls_without_index ev st st' :
  dispatch lunr BASE_URL ev st = Some st' →
  searchIndex st = None →
  searchCalls st' = searchCalls st.
Proof.
  intros H Hidx.
  destruct ev; unfold dispatch in H; cbv beta iota zeta in H;
    try (injection H as <-; unfold menuResized, menuKeydown, searchKeydown,
           toggleMenu, bottomNavSearchClicked, fetchSettled;
         repeat (simpl; case_match); by simpl).
  - unfold clickNavTab in H. repeat case_match; simplify_option_eq; by simpl.
  - injection H as <-. split_if; [|done].
    unfold performMobileSearch. rewrite Hidx.
    destruct (searchInput (document st)); [|done].
    destruct (falsy _); apply assignResults_calls.
Qed.

(** The index is set once and never unset. *)
Lemma dispatch_index_kept ev st st' :
  dispatch lunr BASE_URL ev st = Some st' →
  searchIndex st' = None → searchIndex st = None.
Proof.
  intros H.
  assert ((∃ r, ev = FetchSettled r) ∨ ∀ r, ev ≠ FetchSettled r) as [[r ->] | Hev].
  { destruct ev; try (right; discriminate). left. by eexists. }
  - simpl in H. injection H as <-. unfold fetchSettled.
    destruct (fetchPending st); [|done].
    destruct r as [| | |data]; try done.
    destruct (data_documents data) as [docs|]; [|done].
    by destruct (lunr docs).
  - destruct (dispatch_closure _ _ _ _ _ H Hev) as (-> & _). done.
Qed.

Lemma run_calls_need_index evs st st' :
  (searchIndex st = None → searchCalls st = []) →
  run lunr BASE_URL evs st = Some st' →
  searchIndex st' = None → searchCalls st' = [].
Proof.
  revert st. induction evs as [|ev evs IH]; intros st Hst; simpl.
  - intros [= <-]. exact Hst.
  - destruct (dispatch lunr BASE_URL ev st) as [st1|] eqn:Hd; simpl; [|discriminate].
    apply IH. intros Hnone.
    pose proof (dispatch_index_kept _ _ _ Hd Hnone) as Hnone0.
    rewrite (dispatch_calls_without_index _ _ _ Hd Hnone0). by apply Hst.
Qed.

(** Once the fetch has settled the closure variables stay as they are. *)
Lemma run_settled evs st st' :
  fetchPending st = false →
  run lunr BASE_URL evs st = Some st' →
  fetchPending st' = false
  ∧ searchIndex st' = searchIndex st
  ∧ searchMetadata st' = searchMetadata st.
Proof.
  revert st. induction evs as [|ev evs IH]; intros st Hp; simpl.
  - by intros [= <-].
  - destruct (dispatch lunr BASE_URL ev st) as [st1|] eqn:Hd; simpl; [|discriminate].
    assert (fetchPending st1 = false ∧ searchIndex st1 = searchIndex st
            ∧ searchMetadata st1 = searchMetadata st) as (Hp1 & Hi1 & Hm1).
    { assert ((∃ r, ev = FetchSettled r) ∨ ∀ r, ev ≠ FetchSettled r) as [[r ->] | Hev].
      { destruct ev; try (right; discriminate). left. by eexists. }
      - simpl in Hd. injection Hd as <-. unfold fetchSettled. by rewrite Hp.
      - destruct (dispatch_closure _ _ _ _ _ Hd Hev) as (-> & -> & ->). done. }
    intros H. destruct (IH _ Hp1 H) as (? & -> & ->). done.
Qed.

Lemma fetchSettled_failure r st :
  (∀ data, r ≠ Json data) →
  fetchPending st = true →
  fetchSettled lunr r st = set_fetchPending false st.
Proof.
  intros Hr Hp. unfold fetchSettled. rewrite Hp.
  destruct r as [| | |data]; try done. by destruct (Hr data).
Qed.

Lemma init_calls d st0 : init d = Some st0 → searchCalls st0 = [].
Proof.
  unfold init, setupMobileSearch.
  destruct (setupSidebarTabs d) as [d'|]; simpl; [|discriminate].
  intros [= <-]. by split_if.
Qed.

(** X20: a failed load is final.  If the fetch is rejected, or answers with
    a non-success status, or its body is not JSON, then whatever happens
    afterwards (later settlements included) the index and the metadata stay
    unset and the index is never called. *)
Theorem X20_failed_fetch_is_final d st0 evs1 st1 r evs2 st :
  init d = Some st0 →
  run lunr BASE_URL evs1 st0 = Some st1 →
  fetchPending st1 = true →
  (∀ data, r ≠ Json data) →
  run lunr BASE_URL (FetchSettled r :: evs2) st1 = Some st →
  searchIndex st = None ∧ searchMetadata st = None ∧ searchCalls st = [].
Proof.
  intros Hinit Hrun1 Hp Hr Hrun2.
  destruct (run_search_state _ _ _ _ _ _ Hinit Hrun1) as (Ha & _).
  destruct (Ha Hp) as [Hi Hm].
  assert (searchIndex st = None ∧ searchMetadata st = None) as [Hi' Hm'].
  { simpl in Hrun2. rewrite (fetchSettled_failure _ _ Hr Hp) in Hrun2.
    assert (fetchPending (set_fetchPending false st1) = false) as Hsettled by done.
    destruct (run_settled _ _ _ Hsettled Hrun2) as (_ & -> & ->). done. }
  split_and!; [done | done |].
  assert (run lunr BASE_URL (evs1 ++ FetchSettled r :: evs2) st0 = Some st) as Hrun.
  { rewrite run_app, Hrun1. exact Hrun2. }
  apply (run_calls_need_index _ _ _ (λ _, init_calls _ _ Hinit) Hrun Hi').
Qed.

(** Without the header search button no handler closes the overlay or
    searches. *)
Lemma dispatch_without_search_button ev st st' :
  searchBtn (document st) = false →
  dispatch lunr BASE_URL ev st = Some st' →
  searchBtn (document st') = false
  ∧ (containsClass "active" (searchOverlay (document st)) = true →
     containsClass "active" (searchOverlay (document st')) = true)
  ∧ searchCalls st' = searchCalls st
  ∧ searchResults (document st') = searchResults (document st).
Proof.
  intros Hs H.
  destruct ev; unfold dispatch, searchPresent in H; rewrite ?Hs in H;
    cbv beta iota zeta in H; simpl andb in H; cbv iota in H;
    try (injection H as <-; unfold menuResized, menuKeydown, toggleMenu, fetchSettled;
         repeat (simpl; case_match); by simpl).
  - unfold clickNavTab in H.
    destruct (tabsPresent (document st)); [|by injection H as <-].
    destruct (tabs (document st) !! i) as [t|]; [|by injection H as <-].
    destruct (switchTab _ _) as [d1|] eqn:Hsw; [|discriminate].
    injection H as <-. simpl.
    destruct (switchTab_frame _ _ _ Hsw)
      as (_ & _ & _ & _ & _ & _ & _ & -> & -> & _ & _ & -> & _).
    done.
  - injection H as <-. simpl. unfold bottomNavSearchClicked.
    destruct (bottomSearchBtn (document st)); simpl; [|done].
    destruct (bool_decide (is_Some (searchOverlay (document st)))) eqn:Ho; [|done].
    simpl. split_and!; try done. intros _. rewrite containsClass_add. exact Ho.
Qed.

(** X22: on a page that has the bottom-navigation button and the overlay
    but not the header search button, the button opens the overlay and
    nothing closes it again: after any further events the overlay is still
    active, what the results element shows is unchanged, and the index has
    not been called. *)
Theorem X22_bottom_nav_alone_cannot_close st :
  searchBtn (document st) = false →
  bottomSearchBtn (document st) = true →
  is_Some (searchOverlay (document st)) →
  ∃ st1,
    dispatch lunr BASE_URL ClickBottomNavSearch st = Some st1
    ∧ containsClass "active" (searchOverlay (document st1)) = true
    ∧ "menu-open" ∈ body (document st1)
    ∧ ∀ evs st2,
        run lunr BASE_URL evs st1 = Some st2 →
        containsClass "active" (searchOverlay (document st2)) = true
        ∧ searchResults (document st2) = searchResults (document st)
        ∧ searchCalls st2 = searchCalls st.
Proof.
  intros Hs Hb Ho.
  exists (on_document openSearch st). split_and!.
  - unfold dispatch, bottomNavSearchClicked. unfold on_document at 1.
    rewrite Hb. simpl. by rewrite bool_decide_eq_true_2.
  - simpl. rewrite containsClass_add. by apply bool_decide_eq_true_2.
  - simpl. apply elem_of_union. right. by apply elem_of_singleton.
  - intros evs.
    assert (∀ sta stb,
              searchBtn (document sta) = false →
              containsClass "active" (searchOverlay (document sta)) = true →
              run lunr BASE_URL evs sta = Some stb →
              containsClass "active" (searchOverlay (document stb)) = true
              ∧ searchResults (document stb) = searchResults (document sta)
              ∧ searchCalls stb = searchCalls sta) as Hinv.
    { induction evs as [|ev evs IH]; intros sta stb Hsa Haa; simpl.
      - by intros [= <-].
      - destruct (dispatch lunr BASE_URL ev sta) as [stc|] eqn:Hd; simpl; [|discriminate].
        destruct (dispatch_without_search_button _ _ _ Hsa Hd) as (Hsc & Hac & Hcc & Hrc).
        intros Hrun. destruct (IH stc stb Hsc (Hac Haa) Hrun) as (? & -> & ->).
        by split_and!. }
    intros st2 Hrun.
    apply (Hinv (on_document openSearch st) st2); [done | | done].
    simpl. rewrite containsClass_add. by apply bool_decide_eq_true_2.
Qed.

(** X24: the index is built once.  After the fetch has settled, whatever
    the outcome, no event changes the index or the metadata; a settlement
    delivered again is ignored. *)
Theorem X24_index_fixed_once_settled evs st st' :
  fetchPending st = false →
  run lunr BASE_URL evs st = Some st' →
  searchIndex st' = searchIndex st
  ∧ searchMetadata st' = searchMetadata st
  ∧ ∀ r, fetchSettled lunr r st' = st'.
Proof.
  intros Hp Hrun. destruct (run_settled _ _ _ Hp Hrun) as (Hp' & Hi & Hm).
  split_and!; [done | done |]. intros r. unfold fetchSettled. by rewrite Hp'.
Qed.

End SearchOnThePage.

(** ** The further properties on the sample pages *)

Lemma X2_witness :
  menuMarkersAgree samplePage
  ∧ init samplePage = Some sampleStart
  ∧ run sampleLunr None [ClickSearchBtn] sampleStart = Some sampleSearchOpen
  ∧ containsClass "active" (menuBtn (document sampleSearchOpen))
    = containsClass "open" (sidebar (document sampleSearchOpen)).
Proof.
  assert (menuMarkersAgree samplePage) as Hagree by (split; reflexivity).
  split_and!; [exact Hagree | reflexivity | reflexivity |].
  exact (proj1 (X2_menu_markers_in_step sampleLunr None samplePage sampleStart
                  [ClickSearchBtn] sampleSearchOpen Hagree eq_refl eq_refl)).
Defined.

Lemma X3_witness :
  ("menu-open" ∉ body samplePage)
  ∧ init samplePage = Some sampleStart
  ∧ run sampleLunr None [ClickSearchBtn] sampleStart = Some sampleSearchOpen
  ∧ "menu-open" ∈ body (document sampleSearchOpen)
  ∧ (containsClass "open" (sidebar (document sampleSearchOpen)) = true
     ∨ containsClass "active" (searchOverlay (document sampleSearchOpen)) = true).
Proof.
  assert ("menu-open" ∉ body samplePage) as Hnot by apply not_elem_of_empty.
  assert ("menu-open" ∈ body (document sampleSearchOpen)) as Hin.
  { apply elem_of_union. right. by apply elem_of_singleton. }
  split_and!; [exact Hnot | reflexivity | reflexivity | exact Hin |].
  exact (X3_body_marker_never_stale sampleLunr None samplePage sampleStart
           [ClickSearchBtn] sampleSearchOpen Hnot eq_refl eq_refl Hin).
Defined.

Lemma X4_witness :
  menuPresent (document sampleStart) = true
  ∧ ("menu-open" ∉ body (document sampleStart))
  ∧ ∃ st1,
      dispatch sampleLunr None ClickMenuBtn sampleStart = Some st1
      ∧ containsClass "open" (sidebar (document st1)) = true
      ∧ dispatch sampleLunr None ClickMenuBtn st1 = Some sampleStart.
Proof.
  assert ("menu-open" ∉ body (document sampleStart)) as Hnot by apply not_elem_of_empty.
  split_and!; [reflexivity | exact Hnot |].
  destruct (X4_menu_button_twice sampleLunr None sampleStart
              eq_refl eq_refl eq_refl eq_refl Hnot)
    as (st1 & Hd & Hopen & _ & _ & _ & Hback).
  exists st1. by split_and!.
Defined.

Lemma X6_witness :
  menuPresent (document sampleStart) = true
  ∧ dispatch sampleLunr None (ResizeTimer 768) sampleStart = Some sampleStart.
Proof.
  split; [reflexivity|].
  refine (proj1 (X6_resize_breakpoint sampleLunr None 768 sampleStart eq_refl) _). lia.
Defined.

Lemma X7_witness :
  switchTab "recent" samplePage
  = Some (default samplePage (switchTab "recent" samplePage))
  ∧ switchTab "recent" (default samplePage (switchTab "recent" samplePage))
    = Some (default samplePage (switchTab "recent" samplePage)).
Proof.
  split; [reflexivity|].
  exact (X7_switchTab_idempotent "recent" samplePage
           (default samplePage (switchTab "recent" samplePage)) eq_refl).
Defined.


Lemma X9_witness :
  tabsPresent (samplePageWith "archive") = true
  ∧ localStorage (samplePageWith "archive") !! STORAGE_KEY = Some "archive"
  ∧ ∃ st,
      init (samplePageWith "archive") = Some st
      ∧ treeSection (document st) = Some "none"
      ∧ recentSection (document st) = Some "none".
Proof.
  split_and!; [reflexivity | reflexivity |].
  destruct (X9_unknown_saved_tab (samplePageWith "archive") "archive" eq_refl eq_refl)
    as (st & Hinit & Htree & Hrecent & _); [discriminate | reflexivity | discriminate..|].
  exists st. by split_and!.
Defined.

Lemma X10_witness :
  localStorage (samplePageWith "") !! STORAGE_KEY = Some ""
  ∧ ∃ st st',
      init (samplePageWith "") = Some st
      ∧ init (with_localStorage (delete STORAGE_KEY) (samplePageWith "")) = Some st'
      ∧ tabs (document st) = tabs (document st')
      ∧ treeSection (document st) = treeSection (document st')
      ∧ recentSection (document st) = recentSection (document st').
Proof.
  split; [reflexivity|].
  exact (X10_empty_saved_tab (samplePageWith "") eq_refl).
Defined.

Lemma X11_witness :
  tabsPresent bottomOnlyPage = false
  ∧ ∃ st0 st,
      init bottomOnlyPage = Some st0
      ∧ run sampleLunr None [ClickNavTab 0; ClickMenuBtn] st0 = Some st
      ∧ tabs (document st) = tabs bottomOnlyPage
      ∧ treeSection (document st) = treeSection bottomOnlyPage
      ∧ recentSection (document st) = recentSection bottomOnlyPage
      ∧ localStorage (document st) = localStorage bottomOnlyPage
      ∧ setItemLog st = [].
Proof.
  split; [reflexivity|].
  exact (X11_tab_guard_failed sampleLunr None bottomOnlyPage
           [ClickNavTab 0; ClickMenuBtn] eq_refl).
Defined.

Lemma X14_witness :
  escapeHtml "a&b" = escapeHtml (String "a" (String "&" "b")) ∧ "a&b" = String "a" (String "&" "b").
Proof.
  split; [reflexivity|].
  exact (X14_escapeHtml_injective "a&b" (String "a" (String "&" "b")) eq_refl).
Defined.

Lemma X16_witness :
  trim " Mem " = trim "Mem"
  ∧ searchResults (document (snd (performMobileSearch None (typed " Mem " sampleLoaded))))
    = searchResults (document (snd (performMobileSearch None (typed "Mem" sampleLoaded)))).
Proof.
  split; [reflexivity|].
  exact (proj1 (proj2 (X16_surrounding_space_ignored None sampleLoaded " Mem " "Mem"
                         eq_refl))).
Defined.

Lemma X17_witness :
  searchPresent (document (typed "Mem" sampleLoaded)) = true
  ∧ searchFieldsPresent (document (typed "Mem" sampleLoaded)) = true
  ∧ dispatch sampleLunr None DebounceTimer (on_document closeSearch (typed "Mem" sampleLoaded))
    = Some (on_document closeSearch (typed "Mem" sampleLoaded)).
Proof.
  split_and!; [reflexivity | reflexivity |].
  exact (proj2 (proj2 (proj2 (X17_timer_after_close_is_idle sampleLunr None
                                (typed "Mem" sampleLoaded) eq_refl eq_refl)))).
Defined.

Lemma sampleData_wellShaped :
  Forall (wellShaped sampleLunr) [FetchSettled (Json sampleData); InputEdited "Mem"].
Proof.
  repeat constructor; simpl; [by eexists|].
  exists sampleDocs. split; [reflexivity | by eexists].
Defined.

Lemma X18_witness :
  init samplePage = Some sampleStart
  ∧ run sampleLunr None [FetchSettled (Json sampleData); InputEdited "Mem"] sampleStart
    = Some (typed "Mem" sampleLoaded)
  ∧ searchFieldsPresent (document (typed "Mem" sampleLoaded)) = true
  ∧ fst (performMobileSearch None (typed "Mem" sampleLoaded)) = Normal.
Proof.
  split_and!; [reflexivity | reflexivity | reflexivity |].
  exact (X18_search_never_throws sampleLunr None samplePage sampleStart
           [FetchSettled (Json sampleData); InputEdited "Mem"] (typed "Mem" sampleLoaded)
           eq_refl eq_refl sampleData_wellShaped eq_refl).
Defined.

Lemma X19_witness :
  run sampleLunr None [FetchSettled (Json documentsOnly); InputEdited "Memex"] sampleStart
  = Some sampleDocumentsOnly
  ∧ searchInput (document sampleDocumentsOnly) = Some "Memex"
  ∧ searchIndex sampleDocumentsOnly = Some (titleIndex sampleDocs)
  ∧ searchMetadata sampleDocumentsOnly = None
  ∧ fst (performMobileSearch None sampleDocumentsOnly) = ThrowTypeError
  ∧ searchResults (document (snd (performMobileSearch None sampleDocumentsOnly))) = Some "".
Proof.
  assert (trim "Memex" ≠ "") as Hq by discriminate.
  destruct (X19_hits_without_metadata_throw None sampleDocumentsOnly "Memex"
              (titleIndex sampleDocs) {| ref := "a" |} []
              eq_refl Hq eq_refl eq_refl eq_refl) as [Hthrow Hkept].
  split; [reflexivity|]. split; [reflexivity|]. split; [reflexivity|].
  split; [reflexivity|]. split.
  - by rewrite Hthrow.
  - by rewrite Hkept.
Defined.

Lemma X20_witness :
  init samplePage = Some sampleStart
  ∧ fetchPending sampleStart = true
  ∧ run sampleLunr None [FetchSettled NotOk; InputEdited "Mem"; DebounceTimer] sampleStart
    = Some sampleFailed
  ∧ searchIndex sampleFailed = None
  ∧ searchMetadata sampleFailed = None
  ∧ searchCalls sampleFailed = [].
Proof.
  assert (∀ data, NotOk ≠ Json data) as Hr by discriminate.
  split; [reflexivity|]. split; [reflexivity|]. split; [reflexivity|].
  exact (X20_failed_fetch_is_final sampleLunr None samplePage sampleStart [] sampleStart
           NotOk [InputEdited "Mem"; DebounceTimer] sampleFailed
           eq_refl eq_refl eq_refl Hr eq_refl).
Defined.

Lemma X22_witness :
  searchBtn (document sampleBottomOnly) = false
  ∧ bottomSearchBtn (document sampleBottomOnly) = true
  ∧ is_Some (searchOverlay (document sampleBottomOnly))
  ∧ ∃ st1,
      dispatch sampleLunr None ClickBottomNavSearch sampleBottomOnly = Some st1
      ∧ ∀ st2,
          run sampleLunr None [Keydown "Escape"; ClickSearchClose] st1 = Some st2 →
          containsClass "active" (searchOverlay (document st2)) = true.
Proof.
  assert (is_Some (searchOverlay (document sampleBottomOnly))) as Ho by (by eexists).
  split_and!; [reflexivity | reflexivity | exact Ho |].
  destruct (X22_bottom_nav_alone_cannot_close sampleLunr None sampleBottomOnly
              eq_refl eq_refl Ho) as (st1 & Hd & _ & _ & Hstay).
  exists st1. split; [exact Hd|].
  intros st2 Hrun. exact (proj1 (Hstay _ _ Hrun)).
Defined.

Lemma X23_witness :
  (∀ i, ClickNavTab i ∉ [ClickMenuBtn; Keydown "Escape"])
  ∧ run sampleLunr None [ClickMenuBtn; Keydown "Escape"] sampleRecentClicked
    = Some sampleRecentClicked
  ∧ tabs (document sampleRecentClicked) = tabs (document sampleRecentClicked).
Proof.
  assert (∀ i, ClickNavTab i ∉ [ClickMenuBtn; Keydown "Escape"]) as Hno.
  { intros i Hin. apply list_elem_of_In in Hin. simpl in Hin.
    destruct Hin as [H | [H | []]]; discriminate H. }
  assert (run sampleLunr None [ClickMenuBtn; Keydown "Escape"] sampleRecentClicked
          = Some sampleRecentClicked) as Hrun by (vm_compute; reflexivity).
  split_and!; [exact Hno | exact Hrun |].
  exact (proj1 (X23_only_tab_clicks_change_tabs sampleLunr None
                  [ClickMenuBtn; Keydown "Escape"] sampleRecentClicked sampleRecentClicked
                  Hno Hrun)).
Defined.

Lemma X24_witness :
  fetchPending sampleLoaded = false
  ∧ run sampleLunr None [FetchSettled NotOk; InputEdited "Mem"] sampleLoaded
    = Some (typed "Mem" sampleLoaded)
  ∧ searchIndex (typed "Mem" sampleLoaded) = searchIndex sampleLoaded.
Proof.
  split_and!; [reflexivity | reflexivity |].
  exact (proj1 (X24_index_fixed_once_settled sampleLunr None
                  [FetchSettled NotOk; InputEdited "Mem"] sampleLoaded
                  (typed "Mem" sampleLoaded) eq_refl eq_refl)).
Defined.
